(** * parse_blat-output.py: the probe/target relation reports

    A shallow embedding of [process_psl_file] (src/parse_blat-output.py) from
    the point where the PSL rows are in the data frame (line 24) to the last
    [to_csv] (line 54), and the properties of the five reports it writes.

    - a data frame is the list of its rows, a row is a record with the 21 PSL
      columns; every cell is the text between two tabs, so a [string] (a
      frame with a line of fewer than 21 cells, which pandas fills up with
      [None], is not a value of this type);
    - a [str] is the sequence of the bytes of its UTF-8 encoding and
      compares byte by byte, which is the order Python gives to [str] (code
      point order is UTF-8 byte order); [strip] and [int] look at the
      characters that the bytes encode;
    - what [int] takes depends on the interpreter in two ways, the limit on
      the digits of a literal and the decimal digits of its Unicode
      database; both are parameters of the model, see [Interpreter];
    - a Python [set] of strings is a [gset string]; the order in which a set
      is iterated is not fixed by the language (string hashing is salted per
      process), so it is a parameter of the model, see [HashOrder];
    - the files written are kept in a list, oldest first, and an exception
      leaves that list as it is at the raise.

    [os.makedirs], the [print] of line 56 and the text that [to_csv] makes of
    a frame are outside the model. The reports are stated on the frame; the
    reading of the file (lines 15-24: [readlines], [strip], [split] and the
    [DataFrame] constructor, with the rows pandas fills up with [None]) is
    modelled apart, in [process_psl_text], and tied to the frame in the
    second part of the theorems. A last part embeds the row loop of
    [tsv_to_gff] and the parsing and grouping of [visualize_gff]
    (src/gff_visualizer.py), up to the calls of matplotlib. *)

From Stdlib Require Import ZArith Ascii String.
From stdpp Require Import base decidable list sorting strings gmap.

Local Open Scope string_scope.
Local Open Scope stdpp_scope.

(** ** Rows *)

(** The columns of line 19-23, in their order. [blockCount] has the type [B]:
    text as read, an integer after line 27. *)
Record Row (B : Type) : Type := mkRow {
  matches : string;
  misMatches : string;
  repMatches : string;
  nCount : string;
  qNumInsert : string;
  qBaseInsert : string;
  tNumInsert : string;
  tBaseInsert : string;
  strand : string;
  qName : string;
  qSize : string;
  qStart : string;
  qEnd : string;
  tName : string;
  tSize : string;
  tStart : string;
  tEnd : string;
  blockCount : B;
  blockSizes : string;
  qStarts : string;
  tStarts : string
}.

Arguments mkRow {B}.
Arguments matches {B}.
Arguments misMatches {B}.
Arguments repMatches {B}.
Arguments nCount {B}.
Arguments qNumInsert {B}.
Arguments qBaseInsert {B}.
Arguments tNumInsert {B}.
Arguments tBaseInsert {B}.
Arguments strand {B}.
Arguments qName {B}.
Arguments qSize {B}.
Arguments qStart {B}.
Arguments qEnd {B}.
Arguments tName {B}.
Arguments tSize {B}.
Arguments tStart {B}.
Arguments tEnd {B}.
Arguments blockCount {B}.
Arguments blockSizes {B}.
Arguments qStarts {B}.
Arguments tStarts {B}.

(** [df["blockCount"] = v] on one row. *)
Definition with_blockCount {A B} (r : Row A) (v : B) : Row B :=
  mkRow (matches r) (misMatches r) (repMatches r) (nCount r) (qNumInsert r)
        (qBaseInsert r) (tNumInsert r) (tBaseInsert r) (strand r) (qName r)
        (qSize r) (qStart r) (qEnd r) (tName r) (tSize r) (tStart r) (tEnd r)
        v (blockSizes r) (qStarts r) (tStarts r).

(** ** Texts

    A [str] is kept as the bytes of its UTF-8 encoding. Where the code looks
    at characters, in [str.strip] and in [int], the character at the head of
    the bytes is decoded. Bytes that are not the encoding of a text are no
    value of a [str]; the functions below are total on them all the same. *)

(** The value of a byte. *)
Definition ord (c : ascii) : N := N_of_ascii c.

(** [str.isspace] on a character ([Py_UNICODE_ISSPACE]): the white space
    that [str.strip] removes. *)
Definition Py_UNICODE_ISSPACE (ch : N) : bool :=
  ((9 <=? ch) && (ch <=? 13) || (28 <=? ch) && (ch <=? 32) ||
   (ch =? 0x85) || (ch =? 0xA0) || (ch =? 0x1680) ||
   (0x2000 <=? ch) && (ch <=? 0x200A) || (ch =? 0x2028) || (ch =? 0x2029) ||
   (ch =? 0x202F) || (ch =? 0x205F) || (ch =? 0x3000))%N.

(** The same on a character of one byte. *)
Definition is_space (c : ascii) : bool :=
  let n := nat_of_ascii c in
  ((9 <=? n)%nat && (n <=? 13)%nat) || ((28 <=? n)%nat && (n <=? 32)%nat).

(** A byte that continues a character. *)
Definition is_cont (c : ascii) : bool :=
  ((0x80 <=? ord c) && (ord c <=? 0xBF))%N.

(** The character that two, three or four bytes encode. *)
Definition code2 (a b : ascii) : option N :=
  if ((0xC2 <=? ord a) && (ord a <=? 0xDF))%N && is_cont b
  then Some ((ord a - 0xC0) * 0x40 + (ord b - 0x80))%N
  else None.

Definition code3 (a b c : ascii) : option N :=
  let ch := ((ord a - 0xE0) * 0x1000 + (ord b - 0x80) * 0x40 +
             (ord c - 0x80))%N in
  if ((0xE0 <=? ord a) && (ord a <=? 0xEF))%N && is_cont b && is_cont c &&
     (0x800 <=? ch)%N && negb ((0xD800 <=? ch) && (ch <=? 0xDFFF))%N
  then Some ch
  else None.

Definition code4 (a b c d : ascii) : option N :=
  let ch := ((ord a - 0xF0) * 0x40000 + (ord b - 0x80) * 0x1000 +
             (ord c - 0x80) * 0x40 + (ord d - 0x80))%N in
  if ((0xF0 <=? ord a) && (ord a <=? 0xF4))%N && is_cont b && is_cont c &&
     is_cont d && (0x10000 <=? ch)%N && (ch <=? 0x10FFFF)%N
  then Some ch
  else None.

(** White space of two and of three bytes; there is none of four. *)
Definition space2 (a b : ascii) : bool :=
  from_option Py_UNICODE_ISSPACE false (code2 a b).

Definition space3 (a b c : ascii) : bool :=
  from_option Py_UNICODE_ISSPACE false (code3 a b c).

(** The text after the characters at its head that are white space, for
    white space of one, two and three bytes given by [sp1], [sp2], [sp3]. *)
Section Strip.
Variable sp1 : ascii → bool.
Variable sp2 : ascii → ascii → bool.
Variable sp3 : ascii → ascii → ascii → bool.

Fixpoint lstrip_by (s : string) : string :=
  match s with
  | String c s1 =>
      if sp1 c then lstrip_by s1
      else
        match s1 with
        | String c2 s2 =>
            if sp2 c c2 then lstrip_by s2
            else
              match s2 with
              | String c3 s3 => if sp3 c c2 c3 then lstrip_by s3 else s
              | EmptyString => s
              end
        | EmptyString => s
        end
  | EmptyString => s
  end.
End Strip.

(** [s.lstrip()]. *)
Definition lstrip (s : string) : string :=
  lstrip_by is_space space2 space3 s.

(** [s.rstrip()]: the same from the end, where the bytes of a character come
    last byte first. *)
Definition rstrip (s : string) : string :=
  String.rev
    (lstrip_by is_space (λ b a, space2 a b) (λ c b a, space3 a b c)
       (String.rev s)).

(** [s.strip()]. *)
Definition strip (s : string) : string := rstrip (lstrip s).

(** ** [astype(int)] on a column of text

    pandas hands an object column to numpy, which calls Python's [int] on
    each cell and stores the result in an int64. [int] on a [str] first makes
    an ASCII text of it: a character of the ASCII range is kept, another
    white space character becomes a space, another decimal digit becomes the
    ASCII digit of its value, and at any other character the text stops with
    a question mark. The ASCII text is then read: optional white space
    ([Py_ISSPACE], which has not the separators 28 to 31), an optional sign,
    decimal digits with single underscores between them, optional white
    space. Above 640 digits a literal with more digits than the limit of the
    interpreter is refused. *)

Inductive exn : Type :=
  | ValueError (literal : string)
  | OverflowError.

(** What the code leaves to the interpreter that runs it: the limit on the
    digits of a literal, [sys.get_int_max_str_digits()], 0 for no limit
    (4300 where the interpreter has the limit, none on the older ones), and
    the decimal digits of its Unicode database, [Py_UNICODE_TODECIMAL]. *)
Class Interpreter : Type := {
  max_str_digits : nat;
  to_decimal : N → option nat;
  to_decimal_digit : ∀ ch d, to_decimal ch = Some d → (d < 10)%nat
}.

Definition Py_ISSPACE (c : ascii) : bool :=
  let n := nat_of_ascii c in
  ((9 <=? n)%nat && (n <=? 13)%nat) || (n =? 32)%nat.

Definition is_digit (c : ascii) : bool :=
  let n := nat_of_ascii c in (48 <=? n)%nat && (n <=? 57)%nat.

Definition digit_value (c : ascii) : Z := (Z.of_nat (nat_of_ascii c) - 48)%Z.

Fixpoint skip_spaces (s : string) : string :=
  match s with
  | String c s' => if Py_ISSPACE c then skip_spaces s' else s
  | EmptyString => s
  end.

(** The number of digits of a literal. *)
Fixpoint count_digits (s : string) : nat :=
  match s with
  | EmptyString => 0
  | String c s' => ((if is_digit c then 1 else 0) + count_digits s')%nat
  end.

(** The digits of a literal; [after_digit] says that the character before
    was a digit, which is where an underscore or the end may come. *)
Fixpoint int_digits (acc : Z) (after_digit : bool) (s : string) : option Z :=
  match s with
  | EmptyString => if after_digit then Some acc else None
  | String c s' =>
      if is_digit c then int_digits (10 * acc + digit_value c)%Z true s'
      else if Ascii.eqb c "_" then
        if after_digit then int_digits acc false s' else None
      else None
  end.

Section Int.
Context `{Py : Interpreter}.

(** What a character outside the ASCII range becomes, [None] for the
    question mark. *)
Definition to_ascii (ch : N) : option ascii :=
  if Py_UNICODE_ISSPACE ch then Some " "%char
  else (λ d, ascii_of_nat (48 + d)) <$> to_decimal ch.

Definition put (ch : N) (rest : string) : string :=
  match to_ascii ch with
  | Some x => String x rest
  | None => "?"
  end.

(** The ASCII text that [int] reads, as CPython's
    [_PyUnicode_TransformDecimalAndSpaceToASCII] makes it. The character 127
    is kept here and is a question mark there when the text has a character
    outside the ASCII range; neither is read. *)
Fixpoint transform (s : string) : string :=
  match s with
  | EmptyString => ""
  | String a s1 =>
      if (ord a <? 0x80)%N then String a (transform s1)
      else
        match s1 with
        | EmptyString => "?"
        | String b s2 =>
            match code2 a b with
            | Some ch => put ch (transform s2)
            | None =>
                match s2 with
                | EmptyString => "?"
                | String c s3 =>
                    match code3 a b c with
                    | Some ch => put ch (transform s3)
                    | None =>
                        match s3 with
                        | EmptyString => "?"
                        | String d s4 =>
                            match code4 a b c d with
                            | Some ch => put ch (transform s4)
                            | None => "?"
                            end
                        end
                    end
                end
            end
        end
  end.

(** The literal has more digits than the interpreter takes. *)
Definition too_long (digits : nat) : bool :=
  (640 <? digits)%nat && (0 <? max_str_digits)%nat &&
  (max_str_digits <? digits)%nat.

(** Python's [int(s)] for a [str], [None] for a [ValueError]. *)
Definition py_int (s : string) : option Z :=
  let text := transform s in
  if too_long (count_digits text) then None
  else
    match String.rev (skip_spaces (String.rev (skip_spaces text))) with
    | String "-" d => Z.opp <$> int_digits 0%Z false d
    | String "+" d => int_digits 0%Z false d
    | d => int_digits 0%Z false d
    end.

Definition in_int64 (z : Z) : bool :=
  ((- 2 ^ 63 <=? z) && (z <? 2 ^ 63))%Z.

(** One cell of [astype(int)]. *)
Definition to_int64 (s : string) : exn + Z :=
  match py_int s with
  | None => inl (ValueError s)
  | Some z => if in_int64 z then inr z else inl OverflowError
  end.

(** The cell parses as an integer: [int] returns on it. *)
Definition parses_as_int (s : string) : Prop := ∃ z, py_int s = Some z.

(** The cell converts: it parses as an integer, and the integer is one of
    an int64. This is what line 27 asks of a cell. *)
Definition converts (s : string) : Prop := ∃ z, to_int64 s = inr z.

(** [df["blockCount"] = df["blockCount"].astype(int)]: the cells are converted
    from the first row on and the first failure is raised. *)
Fixpoint astype_int (df : list (Row string)) : exn + list (Row Z) :=
  match df with
  | [] => inr []
  | r :: df' =>
      match to_int64 (blockCount r) with
      | inl e => inl e
      | inr z =>
          match astype_int df' with
          | inl e => inl e
          | inr d => inr (with_blockCount r z :: d)
          end
      end
  end.
End Int.

(** An interpreter: CPython 3.11 as it starts, with the limit of 4300 digits
    and the decimal digits of Unicode 14.0, which come in runs of ten from
    the digit zero of a script on. *)
Definition decimal_runs : list N :=
  [0x30; 0x660; 0x6F0; 0x7C0; 0x966; 0x9E6; 0xA66; 0xAE6; 0xB66; 0xBE6;
   0xC66; 0xCE6; 0xD66; 0xDE6; 0xE50; 0xED0; 0xF20; 0x1040; 0x1090; 0x17E0;
   0x1810; 0x1946; 0x19D0; 0x1A80; 0x1A90; 0x1B50; 0x1BB0; 0x1C40; 0x1C50;
   0xA620; 0xA8D0; 0xA900; 0xA9D0; 0xA9F0; 0xAA50; 0xABF0; 0xFF10; 0x104A0;
   0x10D30; 0x11066; 0x110F0; 0x11136; 0x111D0; 0x112F0; 0x11450; 0x114D0;
   0x11650; 0x116C0; 0x11730; 0x118E0; 0x11950; 0x11C50; 0x11D50; 0x11DA0;
   0x16A60; 0x16AC0; 0x16B50; 0x1D7CE; 0x1D7D8; 0x1D7E2; 0x1D7EC; 0x1D7F6;
   0x1E140; 0x1E2F0; 0x1E950; 0x1FBF0]%N.

Fixpoint decimal_in (runs : list N) (ch : N) : option nat :=
  match runs with
  | [] => None
  | zero :: runs' =>
      if ((zero <=? ch) && (ch <? zero + 10))%N
      then Some (N.to_nat (ch - zero))
      else decimal_in runs' ch
  end.

Program Definition cpython : Interpreter := {|
  max_str_digits := 4300;
  to_decimal := decimal_in decimal_runs
|}.
Next Obligation.
  intros ch d. induction decimal_runs as [|zero runs IH]; [done|]. simpl.
  destruct ((zero <=? ch) && (ch <? zero + 10))%N eqn:Hrun; [|exact IH].
  apply andb_true_iff in Hrun as [Hlo%N.leb_le Hhi%N.ltb_lt].
  intros [= <-]. lia.
Qed.

(** The same with no limit on the digits. *)
Program Definition cpython_no_limit : Interpreter := {|
  max_str_digits := 0;
  to_decimal := decimal_in decimal_runs
|}.
Next Obligation. apply (to_decimal_digit (Interpreter := cpython)). Qed.

(** ** Series, sets and sorting *)

(** [Series.unique()]: the distinct values, each at its first appearance. *)
Fixpoint unique (x : list string) : list string :=
  match x with
  | [] => []
  | v :: x' => v :: filter (λ w, w ≠ v) (unique x')
  end.

(** [Series.nunique()]. *)
Definition nunique (x : list string) : nat := length (unique x).

(** [set(x)]. *)
Definition py_set (x : list string) : gset string := list_to_set x.

(** The order in which a run of the interpreter iterates a set: some
    arrangement of its members, and nothing more is known of it. *)
Class HashOrder : Type := {
  set_iter : gset string → list string;
  set_iter_perm : ∀ X, set_iter X ≡ₚ elements X
}.

(** [sorted(X)] for a set [X]: the members are taken in iteration order and
    sorted with [str]'s order. *)
Definition sorted `{HashOrder} (X : gset string) : list string :=
  merge_sort String.le (set_iter X).

(** [sep.join(l)]. *)
Fixpoint join (sep : string) (l : list string) : string :=
  match l with
  | [] => ""
  | [v] => v
  | v :: l' => v ++ sep ++ join sep l'
  end.

(** ** [groupby]

    [df.groupby(key)[val]]: one group per distinct key, the keys in sorted
    order (pandas sorts group keys by default), and in each group the [val]
    cells of the rows with that key, in row order. *)
Section Groupby.
Context {B : Type}.

Definition group_keys (key : Row B → string) (df : list (Row B))
  : list string :=
  merge_sort String.le (unique (key <$> df)).

Definition groupby (key val : Row B → string) (df : list (Row B))
  : list (string * list string) :=
  (λ k, (k, val <$> filter (λ r, key r = k) df)) <$> group_keys key df.
End Groupby.

(** [g.apply(f)] (and [g.nunique()] with [f := nunique]): [f] on every group,
    the keys kept; after [reset_index()] the keys are the first column. *)
Definition apply {V : Type} (f : list string → V)
    (g : list (string * list string)) : list (string * V) :=
  (λ kx, (kx.1, f kx.2)) <$> g.

(** ** The five reports (lines 29-54) *)
Section Reports.
Context `{HashOrder} {B : Type}.
Implicit Types df : list (Row B).

(** Line 30. *)
Definition target_counts df : list (string * nat) :=
  apply nunique (groupby tName qName df).

(** Line 35. *)
Definition probe_counts df : list (string * nat) :=
  apply nunique (groupby qName tName df).

(** Line 40. *)
Definition probe_hits df : list (string * string) :=
  apply (λ x, join ", " (sorted (py_set x))) (groupby qName tName df).

(** Line 45. *)
Definition target_hits df : list (string * string) :=
  apply (λ x, join ", " (sorted (py_set x))) (groupby tName qName df).

(** Line 50. *)
Definition all_targets df : gset string := py_set (unique (tName <$> df)).

(** Line 51. *)
Definition probe_target_groups df : list (string * gset string) :=
  apply py_set (groupby qName tName df).

(** Line 52: the index of the groups whose set is [all_targets]. *)
Definition probes_hitting_all_targets df : list string :=
  fst <$> filter (λ kx, kx.2 = all_targets df) (probe_target_groups df).
End Reports.

(** ** Writing the reports *)

Inductive Cell : Type :=
  | Text (s : string)
  | Int (n : Z).

(** A frame as [to_csv] gets it: the column names and the rows. *)
Record Frame : Type := mkFrame {
  columns : list string;
  data : list (list Cell)
}.

(** The files written to the output directory, by name, oldest first. *)
Definition Files : Type := list (string * Frame).

(** A computation that may raise and that writes files. *)
Definition io (A : Type) : Type := Files → (exn + A) * Files.

#[export] Instance io_ret : MRet io := λ A (a : A) fs, (inr a, fs).

#[export] Instance io_bind : MBind io := λ A C (k : A → io C) (m : io A) fs,
  match m fs with
  | (inl e, fs') => (inl e, fs')
  | (inr a, fs') => k a fs'
  end.

(** A result or an exception of a pure step, in [io]. *)
Definition raise_or_ret {A} (r : exn + A) : io A := λ fs, (r, fs).

(** [frame.to_csv(os.path.join(output_dir, name), ...)]. *)
Definition to_csv (name : string) (f : Frame) : io unit :=
  λ fs, (inr tt, (fs ++ [(name, f)])%list).

Definition count_frame (cols : list string) (rows : list (string * nat))
  : Frame :=
  mkFrame cols ((λ kn, [Text kn.1; Int (Z.of_nat kn.2)]) <$> rows).

Definition hits_frame (cols : list string) (rows : list (string * string))
  : Frame :=
  mkFrame cols ((λ kv, [Text kv.1; Text kv.2]) <$> rows).

Definition index_frame (cols : list string) (rows : list string) : Frame :=
  mkFrame cols ((λ k, [Text k]) <$> rows).

(** [process_psl_file] from line 27 on, on the frame of line 24. The file
    names are relative to [output_dir]. *)
Definition process_psl_file `{Py : Interpreter} `{HashOrder}
    (df0 : list (Row string)) : io unit :=
  df ← raise_or_ret (astype_int df0);
  to_csv "Unique_Target_Counts.csv"
    (count_frame ["Target (Column 14)"; "Unique Probes (Column 10)"]
       (target_counts df));;
  to_csv "Unique_Probe_Counts.csv"
    (count_frame ["Probe (Column 10)"; "Unique Targets (Column 14)"]
       (probe_counts df));;
  to_csv "Probe_to_Target_Hits.csv"
    (hits_frame ["Probe (Column 10)"; "Target Hits (Column 14)"]
       (probe_hits df));;
  to_csv "Target_to_Probe_Hits.csv"
    (hits_frame ["Target (Column 14)"; "Probes (Column 10)"]
       (target_hits df));;
  to_csv "Probes_Hitting_All_Targets.csv"
    (index_frame ["Probes Hitting All Targets"]
       (probes_hitting_all_targets df)).

(** ** Reading a listing back

    The entries of a joined value: the pieces between the occurrences of
    [", "], as [value.split(", ")] gives them. *)
Fixpoint entries_go (cur : string) (s : string) : list string :=
  match s with
  | EmptyString => [String.rev cur]
  | String c s' =>
      match s' with
      | String d s'' =>
          if Ascii.eqb c "," && Ascii.eqb d " "
          then String.rev cur :: entries_go "" s''
          else entries_go (String c cur) s'
      | EmptyString => entries_go (String c cur) s'
      end
  end.

Definition entries (s : string) : list string := entries_go "" s.

(** ** Two runs of the interpreter *)

(** A run that iterates a set in the order of [elements]. *)
Program Definition run_forward : HashOrder := {|
  set_iter := elements
|}.
Next Obligation. reflexivity. Qed.

(** A run that iterates it the other way round. *)
Program Definition run_backward : HashOrder := {|
  set_iter X := reverse (elements X)
|}.
Next Obligation. intros X. apply reverse_Permutation. Qed.

(** ** The relation *)

(** A row with the given cells in [qName], [tName] and [blockCount]. *)
Definition hit {B} (p t : string) (b : B) : Row B :=
  mkRow "0" "0" "0" "0" "0" "0" "0" "0" "+" p "0" "0" "0" t "0" "0" "0" b
        "0," "0," "0,".

Definition pair_of {B} (r : Row B) : string * string := (qName r, tName r).

(** Probe [p] aligns to target [t] in [df]. *)
Definition aligned {B} (df : list (Row B)) (p t : string) : Prop :=
  (p, t) ∈ pair_of <$> df.

(** The cells of [val] met in the rows whose [key] cell is [k]. *)
Definition related {B} (key val : Row B → string) (df : list (Row B))
    (k v : string) : Prop :=
  ∃ r, r ∈ df ∧ key r = k ∧ val r = v.

(** Sorted by [str]'s order, no value twice. *)
Definition ascending (l : list string) : Prop :=
  StronglySorted (strict String.le) l.

(** [v] is an entry of the listing that [rows] has for the key [k]. *)
Definition listed (rows : list (string * string)) (k v : string) : Prop :=
  ∃ s, (k, s) ∈ rows ∧ v ∈ entries s.

(** The text has an occurrence of the separator [", "]. *)
Fixpoint has_sep (s : string) : bool :=
  match s with
  | EmptyString => false
  | String c s' =>
      match s' with
      | String d _ => (Ascii.eqb c "," && Ascii.eqb d " ") || has_sep s'
      | EmptyString => false
      end
  end.

(** No probe or target name of the frame has the separator in it. *)
Definition sep_free {B} (df : list (Row B)) : Prop :=
  Forall (λ r, has_sep (qName r) = false ∧ has_sep (tName r) = false) df.

#[export] Instance sep_free_dec {B} (df : list (Row B)) : Decision (sep_free df).
Proof. unfold sep_free. apply _. Defined.

(** The frames of the examples of the specification. *)
Definition example1 : list (Row string) :=
  [hit "p1" "t1" "1"; hit "p1" "t2" "1"; hit "p2" "t1" "2"].

Definition example2 : list (Row string) :=
  [hit "p1" "t1" "3"; hit "p1" "t1" "1"].

Definition example4 : list (Row string) :=
  [hit "p1" "t1" "1"; hit "p2" "t1" "NA"].

(** A probe whose name has a comma and a space in it. *)
Definition comma_probe : list (Row Z) := [hit "a, b" "t" 1%Z].

(** Example 1 with the integers in place. *)
Definition example1_int : list (Row Z) :=
  [hit "p1" "t1" 1%Z; hit "p1" "t2" 1%Z; hit "p2" "t1" 2%Z].

(** Example 1 with a repeated pair, the rows in another order, other block
    counts (one negative) and other cells in the columns that are not read. *)
Definition example1_shuffled : list (Row string) :=
  [hit "p2" "t1" "-3"; hit "p1" "t2" " 40";
   mkRow "57" "1" "0" "0" "0" "0" "0" "0" "-" "p1" "60" "2" "60" "t1" "900"
         "10" "68" "+1" "58," "2," "10,";
   hit "p2" "t1" "7"].

(** Every count is the number of entries of the listing with the same key,
    and the two reports have the same keys. *)
Definition counts_match_listings (counts : list (string * nat))
    (hits : list (string * string)) : Prop :=
  counts.*1 = hits.*1 ∧
  ∀ k n s, (k, n) ∈ counts → (k, s) ∈ hits → n = length (entries s).

(** * Reading the PSL file (lines 15-27)

    The part of [process_psl_file] before the reports: the lines of the file,
    the cells of a line, and the frame pandas makes of them. A cell of the
    frame is a text or [None], so it is an [option string] here. *)

Definition TAB : ascii := "009"%char.
Definition LF : ascii := "010"%char.
Definition CR : ascii := "013"%char.

(** [infile.readlines()] on a file opened in text mode: a line ends with
    ["\n"], ["\r\n"] or ["\r"], each of them read as ["\n"] and kept at the
    end of the line; the last line may have no end. *)
Fixpoint readlines (text : string) : list string :=
  match text with
  | EmptyString => []
  | String c text' =>
      if Ascii.eqb c LF then String LF "" :: readlines text'
      else if Ascii.eqb c CR then
        match text' with
        | String d text'' =>
            if Ascii.eqb d LF then String LF "" :: readlines text''
            else String LF "" :: readlines text'
        | EmptyString => [String LF ""]
        end
      else
        match readlines text' with
        | line :: lines => String c line :: lines
        | [] => [String c ""]
        end
  end.

(** [s.split(sep)] for a separator of one character. *)
Fixpoint split (sep : ascii) (s : string) : list string :=
  match s with
  | EmptyString => [""]
  | String c s' =>
      if Ascii.eqb c sep then "" :: split sep s'
      else
        match split sep s' with
        | cell :: cells => String c cell :: cells
        | [] => [String c ""]
        end
  end.

(** Line 24, the comprehension: [line.strip().split("\t")]. *)
Definition cells_of_line (line : string) : list string :=
  split TAB (strip line).

(** The names of line 19-23. *)
Definition psl_columns : list string :=
  ["matches"; "misMatches"; "repMatches"; "nCount"; "qNumInsert";
   "qBaseInsert"; "tNumInsert"; "tBaseInsert"; "strand"; "qName"; "qSize";
   "qStart"; "qEnd"; "tName"; "tSize"; "tStart"; "tEnd"; "blockCount";
   "blockSizes"; "qStarts"; "tStarts"].

(** What the whole function may raise: the [ValueError] of the [DataFrame]
    constructor (so many columns passed, the data had so many), the
    [TypeError] of [int(None)], and what the conversion of a text raises. *)
Inductive run_exn : Type :=
  | ColumnsError (passed found : nat)
  | TypeError
  | CellError (e : exn).

(** The longest row. *)
Definition width (data : list (list string)) : nat :=
  max_list (length <$> data).

(** pandas' [to_object_array]: every row is filled up with [None] to the
    length of the longest. *)
Definition to_object_array (data : list (list string))
  : list (list (option string)) :=
  (λ row : list string,
     ((Some <$> row) ++ replicate (width data - length row) None)%list)
  <$> data.

(** [pd.DataFrame(data, columns=columns)] for a list of lists: no row gives
    the empty frame; otherwise the longest row must have as many cells as
    there are column names. *)
Definition DataFrame (data : list (list string)) (columns : list string)
  : run_exn + list (list (option string)) :=
  match data with
  | [] => inr []
  | _ :: _ =>
      if decide (width data = length columns)
      then inr (to_object_array data)
      else inl (ColumnsError (length columns) (width data))
  end.

(** The position of a column name. *)
Fixpoint column_index (name : string) (columns : list string) : option nat :=
  match columns with
  | [] => None
  | c :: columns' =>
      if String.eqb c name then Some 0%nat
      else S <$> column_index name columns'
  end.

(** [row[name]] in a frame with the PSL columns. *)
Definition cell (name : string) (row : list (option string))
  : option string :=
  i ← column_index name psl_columns; mjoin (row !! i).

(** The row of the frame as a [Row]. After line 27 only [qName] and [tName]
    are read, and they are texts when [blockCount] is one; a [None] in
    another column is kept as the empty text. *)
Definition row_of_cells {B} (row : list (option string)) (b : B) : Row B :=
  let text name := default "" (cell name row) in
  mkRow (text "matches") (text "misMatches") (text "repMatches")
        (text "nCount") (text "qNumInsert") (text "qBaseInsert")
        (text "tNumInsert") (text "tBaseInsert") (text "strand")
        (text "qName") (text "qSize") (text "qStart") (text "qEnd")
        (text "tName") (text "tSize") (text "tStart") (text "tEnd") b
        (text "blockSizes") (text "qStarts") (text "tStarts").

(** Line 27 on the frame: the cells of [blockCount] are converted from the
    first row on; [None] raises a [TypeError]. *)
Fixpoint astype_int_cells `{Py : Interpreter}
    (frame : list (list (option string))) : run_exn + list (Row Z) :=
  match frame with
  | [] => inr []
  | row :: frame' =>
      match cell "blockCount" row with
      | None => inl TypeError
      | Some s =>
          match to_int64 s with
          | inl e => inl (CellError e)
          | inr z =>
              match astype_int_cells frame' with
              | inl e => inl e
              | inr d => inr (row_of_cells row z :: d)
              end
          end
      end
  end.

(** Lines 29-54: the five reports, written one after the other. *)
Definition write_reports `{HashOrder} (df : list (Row Z)) : io unit :=
  to_csv "Unique_Target_Counts.csv"
    (count_frame ["Target (Column 14)"; "Unique Probes (Column 10)"]
       (target_counts df));;
  to_csv "Unique_Probe_Counts.csv"
    (count_frame ["Probe (Column 10)"; "Unique Targets (Column 14)"]
       (probe_counts df));;
  to_csv "Probe_to_Target_Hits.csv"
    (hits_frame ["Probe (Column 10)"; "Target Hits (Column 14)"]
       (probe_hits df));;
  to_csv "Target_to_Probe_Hits.csv"
    (hits_frame ["Target (Column 14)"; "Probes (Column 10)"]
       (target_hits df));;
  to_csv "Probes_Hitting_All_Targets.csv"
    (index_frame ["Probes Hitting All Targets"]
       (probes_hitting_all_targets df)).

(** An outcome of the reports stage among the outcomes of the whole. *)
Definition lift_outcome {A} (o : (exn + A) * Files)
  : (run_exn + A) * Files :=
  match o with
  | (inl e, fs) => (inl (CellError e), fs)
  | (inr a, fs) => (inr a, fs)
  end.

(** [process_psl_file] from the text of [input_file]: lines 15-54. *)
Definition process_psl_text `{Py : Interpreter} `{HashOrder} (text : string)
    (fs : Files) : (run_exn + unit) * Files :=
  let lines := drop 5 (readlines text) in
  match DataFrame (cells_of_line <$> lines) psl_columns with
  | inl e => (inl e, fs)
  | inr frame =>
      match astype_int_cells frame with
      | inl e => (inl e, fs)
      | inr df => lift_outcome (write_reports df fs)
      end
  end.

(** The cells of a row, in the order of the columns. *)
Definition cells_of_row (r : Row string) : list string :=
  [matches r; misMatches r; repMatches r; nCount r; qNumInsert r;
   qBaseInsert r; tNumInsert r; tBaseInsert r; strand r; qName r; qSize r;
   qStart r; qEnd r; tName r; tSize r; tStart r; tEnd r; blockCount r;
   blockSizes r; qStarts r; tStarts r].

(** The line that has the given cells. *)
Definition line_of_cells (cells : list string) : string :=
  join (String TAB "") cells ++ String LF "".

(** The text has the character. *)
Fixpoint has_char (c : ascii) (s : string) : bool :=
  match s with
  | EmptyString => false
  | String d s' => Ascii.eqb d c || has_char c s'
  end.

(** The first and the last character of a text. *)
Definition first_char (s : string) : option ascii :=
  match s with
  | EmptyString => None
  | String c _ => Some c
  end.

Fixpoint last_char (s : string) : option ascii :=
  match s with
  | EmptyString => None
  | String c EmptyString => Some c
  | String _ s' => last_char s'
  end.

(** The five files of a run on a frame with no row. *)
Definition empty_reports : Files :=
  [("Unique_Target_Counts.csv",
    mkFrame ["Target (Column 14)"; "Unique Probes (Column 10)"] []);
   ("Unique_Probe_Counts.csv",
    mkFrame ["Probe (Column 10)"; "Unique Targets (Column 14)"] []);
   ("Probe_to_Target_Hits.csv",
    mkFrame ["Probe (Column 10)"; "Target Hits (Column 14)"] []);
   ("Target_to_Probe_Hits.csv",
    mkFrame ["Target (Column 14)"; "Probes (Column 10)"] []);
   ("Probes_Hitting_All_Targets.csv",
    mkFrame ["Probes Hitting All Targets"] [])].

(** The text of a file with the given lines. *)
Definition file_of (lines : list string) : string :=
  foldr String.append "" lines.

(** A cell that a line can carry: no tab and no end of line in it. *)
Definition writable_cell (x : string) : bool :=
  negb (has_char TAB x) && negb (has_char LF x) && negb (has_char CR x).

(** A character of the ASCII range that is not white space: [strip] stops
    at it whatever the encoding of the file is. *)
Definition not_space (c : option ascii) : bool :=
  match c with
  | Some c => (nat_of_ascii c <? 128)%nat && negb (is_space c)
  | None => false
  end.

(** A row that its line gives back: writable cells, and no white space at
    the start of the first cell or at the end of the last, which are not
    empty. *)
Definition writable_row (r : Row string) : bool :=
  forallb writable_cell (cells_of_row r) &&
  not_space (first_char (matches r)) && not_space (last_char (tStarts r)).

(** A PSL file with two records, and a header of five lines. *)
Definition psl_header : list string :=
  ["psLayout version 3"; ""; "match   mis-    rep.    N's"; "        match";
   "---------------"].

Definition psl_text : string :=
  file_of ((λ h, h ++ String LF "") <$> psl_header) ++
  line_of_cells (cells_of_row (hit "p1" "t1" "1")) ++
  line_of_cells (cells_of_row (hit "p2" "t1" "2")).

(** The header and one line that is not a record. *)
Definition psl_text_one_cell : string :=
  file_of ((λ h, h ++ String LF "") <$> psl_header) ++ "a line".

(** The two records and an empty line after them. *)
Definition psl_text_blank_line : string := psl_text ++ String LF "".

(** * gff_visualizer.py

    [tsv_to_gff] from the rows that [csv.reader] gives for the TSV file to
    the text written to the GFF file, and [visualize_gff] from the text of a
    GFF file to the features it groups for the plot. The names of the files,
    the messages printed and the calls to matplotlib are outside the model.
    A value of a dictionary of [DictReader] is a text or [None]. *)

(** [s.startswith(prefix)]. *)
Fixpoint startswith (s prefix : string) {struct prefix} : bool :=
  match prefix with
  | EmptyString => true
  | String p prefix' =>
      match s with
      | EmptyString => false
      | String c s' => Ascii.eqb c p && startswith s' prefix'
      end
  end.

(** [s.split(sep, 1)] when it has two parts: the text before the first
    separator and the text after it. *)
Fixpoint split_once (sep : ascii) (s : string) : option (string * string) :=
  match s with
  | EmptyString => None
  | String c s' =>
      if Ascii.eqb c sep then Some ("", s')
      else
        match split_once sep s' with
        | Some (a, b) => Some (String c a, b)
        | None => None
        end
  end.

(** [dict(items)], and the insertions after it: a later value of a key
    replaces an earlier one. *)
Definition py_dict (items : list (string * option string))
  : gmap string (option string) :=
  foldl (λ d kv, <[kv.1 := kv.2]> d) ∅ items.

(** The dictionary that [DictReader] makes of a row: a field name with no
    cell gets [None]. The cells beyond the field names go under the key
    [None], which no [get] below asks for. *)
Definition dict_row (fieldnames row : list string)
  : gmap string (option string) :=
  py_dict (zip fieldnames
             ((Some <$> row) ++
              replicate (length fieldnames - length row) None)%list).

(** [csv.DictReader] on the rows of [csv.reader]: the first row has the
    field names, and the rows with no cell (the blank lines) are left out. *)
Definition DictReader (records : list (list string))
  : list (gmap string (option string)) :=
  match records with
  | [] => []
  | fieldnames :: rows => dict_row fieldnames <$> filter (λ row, row ≠ []) rows
  end.

(** [row.get(key, default)]. *)
Definition get (row : gmap string (option string)) (key default : string)
  : option string :=
  match row !! key with
  | Some v => v
  | None => Some default
  end.

(** The truth value of a text or [None]. *)
Definition truthy (v : option string) : bool :=
  match v with
  | Some (String _ _) => true
  | _ => false
  end.

(** A value in an f-string. *)
Definition str (v : option string) : string := default "None" v.

(** A feature as [visualize_gff] keeps it. *)
Record Feature : Type := mkFeature {
  seqid : string;
  start_int : Z;
  end_int : Z;
  type_feature : string;
  color : string
}.

#[export] Instance Feature_eq_dec : EqDecision Feature.
Proof. solve_decision. Defined.

(** What the body of a loop does with one row or one line. *)
Inductive step (A : Type) : Type :=
  | Skipped
  | Done (a : A)
  | Raised.

Arguments Skipped {A}.
Arguments Done {A}.
Arguments Raised {A}.

Section Gff.
Context `{Py : Interpreter}.

(** Lines 73-91: the region of a row, [None] when the row is skipped. *)
Definition region_of (row : gmap string (option string))
  : option (option string * option string) :=
  let target := get row "target" "" in
  if truthy target && has_char "-" (str target) then
    match split_once "-" (str target) with
    | Some (start_str, end_str) =>
        Some (Some (strip start_str), Some (strip end_str))
    | None => Some (get row "start" "", get row "end" "")
    end
  else
    let start := get row "start" "" in
    let end_ := get row "end" "" in
    if negb (truthy start) || negb (truthy end_) then None
    else Some (start, end_).

(** Lines 99-113: the line of a row with the region [start], [end_]. *)
Definition gff_line (row : gmap string (option string))
    (start end_ : option string) (bases_1X : string) : string :=
  let seqid := get row "chrom" "chrUnknown" in
  let coverage := default 0%Z (py_int bases_1X) in
  let attributes :=
    if (1 <=? coverage)%Z
    then "ID=region_" ++ str start ++ ";Name=region;color=0,0,255"
    else "ID=region_" ++ str start ++ ";Name=region" in
  str seqid ++ String TAB "EHDV" ++ String TAB "region" ++
  String TAB (str start) ++ String TAB (str end_) ++ String TAB "." ++
  String TAB "." ++ String TAB "." ++ String TAB attributes ++ String LF "".

(** The body of the loop of [tsv_to_gff] on one row: [int(None)] raises a
    [TypeError], which nothing catches. *)
Definition gff_step (row : gmap string (option string)) : step string :=
  match region_of row with
  | None => Skipped
  | Some (start, end_) =>
      match get row "bases_1X" "0" with
      | None => Raised
      | Some bases_1X => Done (gff_line row start end_ bases_1X)
      end
  end.

(** The lines written for the rows, and whether the loop raised. *)
Fixpoint gff_body (rows : list (gmap string (option string)))
  : string * bool :=
  match rows with
  | [] => ("", false)
  | row :: rows' =>
      match gff_step row with
      | Skipped => gff_body rows'
      | Done line => (line ++ (gff_body rows').1, (gff_body rows').2)
      | Raised => ("", true)
      end
  end.

(** [tsv_to_gff]: the text of the GFF file when the function returns or
    raises, and whether it raised. *)
Definition tsv_to_gff (records : list (list string)) : string * bool :=
  ("##gff-version 3" ++ String LF "" ++ (gff_body (DictReader records)).1,
   (gff_body (DictReader records)).2).

(** Lines 153-156: the colour of the first attribute that names one. *)
Definition color_of (attributes : string) : string :=
  match filter (λ attr, startswith attr "color=" = true)
               (split ";" attributes) with
  | attr :: _ =>
      match split "=" attr with
      | _ :: value :: _ => value
      | _ => "black"
      end
  | [] => "black"
  end.

(** Lines 139-157 on one line: nine cells are unpacked, and more than nine
    raise a [ValueError] outside the [try]. *)
Definition feature_step (line : string) : step Feature :=
  if startswith line "#" then Skipped
  else
    let parts := cells_of_line line in
    if (length parts <? 9)%nat then Skipped
    else
      match parts with
      | [seqid; _; type_feature; start; end_; _; _; _; attributes] =>
          match py_int start, py_int end_ with
          | Some start_int, Some end_int =>
              Done (mkFeature seqid start_int end_int type_feature
                      (color_of attributes))
          | _, _ => Skipped
          end
      | _ => Raised
      end.

(** [features_data] at the end of the loop of line 138, [None] when the
    loop raised. *)
Fixpoint features_of_lines (lines : list string) : option (list Feature) :=
  match lines with
  | [] => Some []
  | line :: lines' =>
      match feature_step line with
      | Skipped => features_of_lines lines'
      | Done f => (f ::.) <$> features_of_lines lines'
      | Raised => None
      end
  end.

Definition features_data (text : string) : option (list Feature) :=
  features_of_lines (readlines text).
End Gff.

(** Lines 160-163: [setdefault(seqid, []).append(...)] for every feature. *)
Definition grouped_features (features : list Feature)
  : gmap string (list (Z * Z * string * string)) :=
  foldl (λ g f,
         <[seqid f := (default [] (g !! seqid f) ++
                       [(start_int f, end_int f, type_feature f, color f)])
                      %list]> g)
        ∅ features.

(** The tuple that is kept of a feature in its group. *)
Definition feature_tuple (f : Feature) : Z * Z * string * string :=
  (start_int f, end_int f, type_feature f, color f).


(** The same with a row that stops before its coverage, in the middle. *)
Definition tsv_records_short_row : list (list string) :=
  [["chrom"; "target"; "bases_1X"];
   ["chr1"; "10-20"; "5"];
   ["chr2"; "30-40"];
   ["chr3"; "50-60"; "1"]].


(** One full record and one that stops after [blockCount]. *)
Definition psl_text_truncated : string :=
  file_of ((λ h, h ++ String LF "") <$> psl_header) ++
  line_of_cells (cells_of_row (hit "p1" "t1" "1")) ++
  line_of_cells (take 18 (cells_of_row (hit "p2" "t2" "2"))).

(** Texts outside the ASCII range: U+0661 U+0662, U+00A0 and U+2003. *)
Definition arabic_indic_12 : string :=
  String "217" (String "161" (String "217" (String "162" ""))).

Definition no_break_space : string := String "194" (String "160" "").

Definition em_space : string :=
  String "226" (String "128" (String "131" "")).

(** A literal of [n] zeros. *)
Fixpoint zeros (n : nat) : string :=
  match n with
  | O => ""
  | S n' => String "0" (zeros n')
  end.

(** A frame whose block count is an integer that no int64 holds, and the
    frame with the same pair and the block count 1. *)
Definition wide_block_count : list (Row string) :=
  [hit "p1" "t1" "9223372036854775808"].

Definition example_one : list (Row string) := [hit "p1" "t1" "1"].

(** * Examples *)

(** A line that starts with a no-break space and a tab has the cells after
    them: [strip] takes both. *)
Example cells_after_no_break_space :
  cells_of_line
    (no_break_space ++ String TAB "a" ++ String TAB "b" ++ String LF "") =
  ["a"; "b"].
Proof. reflexivity. Qed.


(** White space of more than one byte at the end of a line of nine cells,
    after a tab, makes no tenth cell, and the feature is kept. *)
Example nine_cells_and_no_break_space :
  feature_step (Py := cpython)
    ("c" ++ String TAB "s" ++ String TAB "t" ++ String TAB "1" ++
     String TAB "2" ++ String TAB "." ++ String TAB "." ++ String TAB "." ++
     String TAB "a" ++ String TAB no_break_space ++ String LF "") =
  Done (mkFeature "c" 1 2 "t" "black").
Proof. reflexivity. Qed.

(** The start of a region is stripped of a no-break space. *)
Example region_after_no_break_space :
  region_of (dict_row ["target"] [no_break_space ++ "5-7"]) =
  Some (Some "5", Some "7").
Proof. by vm_compute. Qed.

(** A start that [int] refuses leaves no feature. *)
Example start_with_file_separator :
  feature_step (Py := cpython)
    ("c" ++ String TAB "s" ++ String TAB "t" ++
     String TAB (String "028" "3") ++
     String TAB "2" ++ String TAB "." ++ String TAB "." ++ String TAB "." ++
     String TAB "a" ++ String LF "") = Skipped.
Proof. reflexivity. Qed.

Example int_plain : py_int (Py := cpython) "12" = Some 12%Z.
Proof. reflexivity. Qed.

Example int_padded : py_int (Py := cpython) "  -007 " = Some (-7)%Z.
Proof. reflexivity. Qed.

Example int_grouped : py_int (Py := cpython) "1_000" = Some 1000%Z.
Proof. reflexivity. Qed.

Example int_NA : py_int (Py := cpython) "NA" = None.
Proof. reflexivity. Qed.

Example int_float : py_int (Py := cpython) "1.5" = None.
Proof. reflexivity. Qed.

Example int_empty : py_int (Py := cpython) "" = None.
Proof. reflexivity. Qed.

Example int_bad_group : py_int (Py := cpython) "1__0" = None.
Proof. reflexivity. Qed.

Example int_too_wide :
  to_int64 (Py := cpython) "9223372036854775808" = inl OverflowError.
Proof. reflexivity. Qed.

(** [int] reads the digits of other scripts: U+0661 U+0662, the
    Arabic-Indic one and two, is 12. *)
Example int_arabic_indic : py_int (Py := cpython) arabic_indic_12 = Some 12%Z.
Proof. reflexivity. Qed.

(** It takes the white space outside the ASCII range, and not the
    separator U+001C, which [strip] removes. *)
Example int_no_break_space :
  py_int (Py := cpython) (no_break_space ++ "5") = Some 5%Z.
Proof. reflexivity. Qed.

Example int_file_separator :
  py_int (Py := cpython) (String "028" "5") = None ∧
  strip (String "028" "5") = "5".
Proof. split; reflexivity. Qed.

(** More than 4300 digits are refused where the limit is 4300, zeros too. *)
Example int_digit_limit :
  py_int (Py := cpython) (zeros 4300) = Some 0%Z ∧
  py_int (Py := cpython) (zeros 4301) = None ∧
  py_int (Py := cpython_no_limit) (zeros 4301) = Some 0%Z.
Proof. vm_compute. done. Qed.

(** [strip] removes the white space of more than one byte, and the tab
    next to it. *)
Example strip_no_break_space :
  strip (no_break_space ++ String TAB "a" ++ String TAB em_space) = "a".
Proof. reflexivity. Qed.

Example unique_first_seen : unique ["b"; "a"; "b"; "c"; "a"] = ["b"; "a"; "c"].
Proof. reflexivity. Qed.

Example entries_split : entries "a,,  b, , c" = ["a,"; " b"; ""; "c"].
Proof. reflexivity. Qed.

Example entries_of_empty : entries "" = [""].
Proof. reflexivity. Qed.

(** Example 1 of the specification. *)
Example example1_reports :
  target_counts example1 = [("t1", 2%nat); ("t2", 1%nat)] ∧
  probe_counts example1 = [("p1", 2%nat); ("p2", 1%nat)] ∧
  probe_hits (H := run_forward) example1 = [("p1", "t1, t2"); ("p2", "t1")] ∧
  target_hits (H := run_forward) example1 = [("t1", "p1, p2"); ("t2", "p1")] ∧
  probes_hitting_all_targets example1 = ["p1"].
Proof. vm_compute. done. Qed.

(** Example 2 of the specification. *)
Example example2_reports :
  target_counts example2 = [("t1", 1%nat)] ∧
  probe_hits (H := run_forward) example2 = [("p1", "t1")] ∧
  probes_hitting_all_targets example2 = ["p1"].
Proof. vm_compute. done. Qed.

(** Example 4 of the specification: nothing is written. *)
Example example4_raises :
  process_psl_file (Py := cpython) (H := run_forward) example4 [] =
  (inl (ValueError "NA"), []).
Proof. vm_compute. done. Qed.

(** The other iteration order gives the same listing. *)
Example example1_backward :
  probe_hits (H := run_backward) example1 = [("p1", "t1, t2"); ("p2", "t1")].
Proof. vm_compute. done. Qed.

(** * Lemmas *)

(** ** [unique] *)

Lemma elem_of_unique (x : list string) v : v ∈ unique x ↔ v ∈ x.
Proof.
  induction x as [|w x IH]; simpl; [done|].
  rewrite !elem_of_cons, list_elem_of_filter, IH.
  destruct (decide (v = w)); tauto.
Qed.

Lemma NoDup_unique (x : list string) : NoDup (unique x).
Proof.
  induction x as [|w x IH]; simpl; constructor.
  - rewrite list_elem_of_filter. by intros [Hne _].
  - by apply NoDup_filter.
Qed.

Lemma same_members_perm (l1 l2 : list string) :
  NoDup l1 → NoDup l2 → (∀ v, v ∈ l1 ↔ v ∈ l2) → l1 ≡ₚ l2.
Proof. intros. by apply NoDup_Permutation. Qed.

Lemma nunique_members (x x' : list string) :
  (∀ v, v ∈ x ↔ v ∈ x') → nunique x = nunique x'.
Proof.
  intros Hm. unfold nunique. apply Permutation_length, same_members_perm;
    auto using NoDup_unique.
  intros v. by rewrite !elem_of_unique.
Qed.

Lemma elem_of_py_set (x : list string) v : v ∈ py_set x ↔ v ∈ x.
Proof. unfold py_set. apply elem_of_list_to_set. Qed.

Lemma py_set_members (x x' : list string) :
  (∀ v, v ∈ x ↔ v ∈ x') → py_set x = py_set x'.
Proof.
  intros Hm. apply set_eq. intros v. unfold py_set.
  by rewrite !elem_of_list_to_set.
Qed.

Lemma nunique_size (x : list string) : nunique x = size (py_set x).
Proof.
  unfold nunique, py_set.
  rewrite <- (size_list_to_set (C := gset string) (unique x))
    by apply NoDup_unique.
  f_equal. apply set_eq. intros v.
  by rewrite !elem_of_list_to_set, elem_of_unique.
Qed.

(** ** Sorting *)

Lemma ascending_of_sorted (l : list string) :
  NoDup l → StronglySorted String.le l → ascending l.
Proof.
  intros Hnd Hs. induction Hs as [|v l Hs IH Hv]; [constructor|].
  apply NoDup_cons in Hnd as [Hv' Hnd]. constructor; [by apply IH|].
  rewrite Forall_forall in Hv |- *. intros w Hw. split; [by apply Hv|].
  intros Hle. apply Hv'.
  assert (v = w) as -> by (apply (anti_symm String.le); auto).
  done.
Qed.

Lemma sort_ascending (l : list string) :
  NoDup l → ascending (merge_sort String.le l).
Proof.
  intros Hnd. apply ascending_of_sorted.
  - by rewrite merge_sort_Permutation.
  - apply StronglySorted_merge_sort; apply _.
Qed.

Lemma sort_perm (l1 l2 : list string) :
  l1 ≡ₚ l2 → merge_sort String.le l1 = merge_sort String.le l2.
Proof.
  intros Hp. apply (Sorted_unique String.le).
  - apply Sorted_merge_sort; apply _.
  - apply Sorted_merge_sort; apply _.
  - by rewrite !merge_sort_Permutation.
Qed.

Lemma ascending_NoDup (l : list string) : ascending l → NoDup l.
Proof.
  induction 1 as [|v l Hs IH Hv]; constructor; [|done].
  intros Hin. rewrite Forall_forall in Hv. destruct (Hv v Hin) as [_ Hn].
  by apply Hn.
Qed.

Section Sorted.
Context `{HashOrder}.

Lemma elem_of_sorted (X : gset string) v : v ∈ sorted X ↔ v ∈ X.
Proof.
  unfold sorted.
  by rewrite merge_sort_Permutation, set_iter_perm, elem_of_elements.
Qed.

Lemma sorted_ascending (X : gset string) : ascending (sorted X).
Proof.
  apply sort_ascending. rewrite set_iter_perm. apply NoDup_elements.
Qed.
End Sorted.

(** The sorted list of a set is the same in every run. *)
Lemma sorted_any_run (H1 H2 : HashOrder) (X : gset string) :
  sorted (H := H1) X = sorted (H := H2) X.
Proof.
  unfold sorted. apply sort_perm.
  by rewrite (set_iter_perm (HashOrder := H1)),
             (set_iter_perm (HashOrder := H2)).
Qed.

(** ** Groups *)

Section GroupFacts.
Context {B : Type} (key val : Row B → string) (df : list (Row B)).

Lemma elem_of_key_column k :
  k ∈ key <$> df ↔ ∃ v, related key val df k v.
Proof.
  unfold related. rewrite list_elem_of_fmap. split.
  - intros (r & -> & Hr). by exists (val r), r.
  - intros (v & r & Hr & <- & _). by exists r.
Qed.

Lemma elem_of_group_keys k :
  k ∈ group_keys key df ↔ ∃ v, related key val df k v.
Proof.
  unfold group_keys.
  by rewrite merge_sort_Permutation, elem_of_unique, elem_of_key_column.
Qed.

Lemma group_keys_ascending : ascending (group_keys key df).
Proof. apply sort_ascending, NoDup_unique. Qed.

Lemma groupby_keys : (groupby key val df).*1 = group_keys key df.
Proof.
  unfold groupby. rewrite <- list_fmap_compose.
  rewrite <- (list_fmap_id (group_keys key df)) at 2.
  by apply list_fmap_ext.
Qed.

Lemma elem_of_group k v :
  v ∈ val <$> filter (λ r, key r = k) df ↔ related key val df k v.
Proof.
  unfold related. rewrite list_elem_of_fmap. split.
  - intros (r & -> & [Hk Hr]%list_elem_of_filter). by exists r.
  - intros (r & Hr & Hk & <-). exists r. split; [done|].
    by apply list_elem_of_filter.
Qed.

Lemma elem_of_groupby k x :
  (k, x) ∈ groupby key val df ↔
  k ∈ group_keys key df ∧ x = val <$> filter (λ r, key r = k) df.
Proof.
  unfold groupby. rewrite list_elem_of_fmap. split.
  - intros (k' & [= -> ->] & Hk). done.
  - intros [Hk ->]. by exists k.
Qed.
End GroupFacts.

Lemma apply_keys {V} (f : list string → V) g : (apply f g).*1 = g.*1.
Proof.
  unfold apply. rewrite <- list_fmap_compose. by apply list_fmap_ext.
Qed.

Lemma elem_of_apply {V} (f : list string → V) g k y :
  (k, y) ∈ apply f g ↔ ∃ x, (k, x) ∈ g ∧ y = f x.
Proof.
  unfold apply. rewrite list_elem_of_fmap. split.
  - intros ([k' x] & [= -> ->] & Hin). by exists x.
  - intros (x & Hin & ->). by exists (k, x).
Qed.

(** What a row of an aggregated report says: its key is met in the frame and
    its value is [f] of a list with exactly the related cells. *)
Lemma elem_of_apply_groupby {B V} (f : list string → V)
    (key val : Row B → string) (df : list (Row B)) k y :
  (k, y) ∈ apply f (groupby key val df) ↔
  (∃ v, related key val df k v) ∧
  y = f (val <$> filter (λ r, key r = k) df).
Proof.
  rewrite elem_of_apply. setoid_rewrite elem_of_groupby.
  rewrite <- (elem_of_group_keys key val). split.
  - by intros (x & [Hk ->] & ->).
  - intros [Hk ->]. eauto.
Qed.

(** Two frames with the same related cells give the same report, whenever
    the aggregation looks at the members of a group only. *)
Lemma apply_groupby_members {B B' V} (f f' : list string → V)
    (key val : Row B → string) (key' val' : Row B' → string)
    (df : list (Row B)) (df' : list (Row B')) :
  (∀ x x', (∀ v, v ∈ x ↔ v ∈ x') → f x = f' x') →
  (∀ k v, related key val df k v ↔ related key' val' df' k v) →
  apply f (groupby key val df) = apply f' (groupby key' val' df').
Proof.
  intros Hf Hrel. unfold apply, groupby. rewrite <- !list_fmap_compose.
  assert (group_keys key df = group_keys key' df') as ->.
  { apply sort_perm, same_members_perm; auto using NoDup_unique.
    intros k. rewrite !elem_of_unique.
    rewrite (elem_of_key_column key val), (elem_of_key_column key' val').
    by setoid_rewrite Hrel. }
  apply list_fmap_ext. intros _ k _. simpl. f_equal. apply Hf. intros v.
  by rewrite !elem_of_group.
Qed.

Lemma related_probe {B} (df : list (Row B)) p t :
  related qName tName df p t ↔ aligned df p t.
Proof.
  unfold related, aligned, pair_of. rewrite list_elem_of_fmap. split.
  - intros (r & Hr & <- & <-). by exists r.
  - intros (r & [= -> ->] & Hr). by exists r.
Qed.

Lemma related_target {B} (df : list (Row B)) p t :
  related tName qName df t p ↔ aligned df p t.
Proof.
  unfold related, aligned, pair_of. rewrite list_elem_of_fmap. split.
  - intros (r & Hr & <- & <-). by exists r.
  - intros (r & [= -> ->] & Hr). by exists r.
Qed.

Lemma elem_of_all_targets {B} (df : list (Row B)) t :
  t ∈ all_targets df ↔ ∃ q, aligned df q t.
Proof.
  unfold all_targets, py_set.
  rewrite elem_of_list_to_set, elem_of_unique, list_elem_of_fmap. split.
  - intros (r & -> & Hr). exists (qName r). apply related_probe. by exists r.
  - intros (q & (r & Hr & _ & <-)%related_probe). by exists r.
Qed.

(** ** The five reports of two frames with the same pairs *)

Section SamePairs.
Context (H1 H2 : HashOrder) {B B' : Type}.
Context (df : list (Row B)) (df' : list (Row B')).
Hypothesis same : ∀ p t, aligned df p t ↔ aligned df' p t.

Lemma same_by_probe k v :
  related qName tName df k v ↔ related qName tName df' k v.
Proof using same. by rewrite !related_probe. Qed.

Lemma same_by_target k v :
  related tName qName df k v ↔ related tName qName df' k v.
Proof using same. by rewrite !related_target. Qed.

Lemma listing_members (x x' : list string) :
  (∀ v, v ∈ x ↔ v ∈ x') →
  join ", " (sorted (H := H1) (py_set x)) =
  join ", " (sorted (H := H2) (py_set x')).
Proof.
  intros Hm. rewrite (py_set_members x x' Hm). f_equal.
  apply sorted_any_run.
Qed.

Lemma target_counts_same :
  target_counts df = target_counts df'.
Proof using same.
  apply apply_groupby_members;
    [apply nunique_members | apply same_by_target].
Qed.

Lemma probe_counts_same :
  probe_counts df = probe_counts df'.
Proof using same.
  apply apply_groupby_members;
    [apply nunique_members | apply same_by_probe].
Qed.

Lemma probe_hits_same :
  probe_hits (H := H1) df = probe_hits (H := H2) df'.
Proof using same.
  apply apply_groupby_members;
    [apply listing_members | apply same_by_probe].
Qed.

Lemma target_hits_same :
  target_hits (H := H1) df = target_hits (H := H2) df'.
Proof using same.
  apply apply_groupby_members;
    [apply listing_members | apply same_by_target].
Qed.

Lemma all_targets_same :
  all_targets df = all_targets df'.
Proof using same.
  apply set_eq. intros t. rewrite !elem_of_all_targets.
  by setoid_rewrite same.
Qed.

Lemma probes_hitting_all_targets_same :
  probes_hitting_all_targets df = probes_hitting_all_targets df'.
Proof using same.
  unfold probes_hitting_all_targets, probe_target_groups.
  rewrite all_targets_same.
  by rewrite (apply_groupby_members py_set py_set qName tName qName tName
                df df' py_set_members same_by_probe).
Qed.
End SamePairs.

(** ** The conversion of [blockCount] *)

Lemma astype_int_pairs `{Py : Interpreter} (df0 : list (Row string))
    (df : list (Row Z)) :
  astype_int df0 = inr df → pair_of <$> df = pair_of <$> df0.
Proof.
  revert df. induction df0 as [|r df0 IH]; intros df; simpl.
  - by intros [= <-].
  - destruct (to_int64 (blockCount r)) as [e|z]; [done|].
    destruct (astype_int df0) as [e|d]; [done|].
    intros [= <-]. rewrite !fmap_cons. f_equal. by apply IH.
Qed.

Lemma astype_int_converts `{Py : Interpreter} (df0 : list (Row string)) :
  Forall (λ r, converts (blockCount r)) df0 →
  ∃ df, astype_int df0 = inr df.
Proof.
  induction 1 as [|r df0 [z Hz] _ [d Hd]]; simpl; [by eexists|].
  rewrite Hz, Hd. by eexists.
Qed.

Lemma astype_int_raises `{Py : Interpreter} (df0 : list (Row string)) r :
  r ∈ df0 → ¬ converts (blockCount r) → ∃ e, astype_int df0 = inl e.
Proof.
  intros Hr Hbad. induction df0 as [|r' df0 IH]; [by apply elem_of_nil in Hr|].
  simpl. destruct (to_int64 (blockCount r')) as [e|z] eqn:Hz; [by eexists|].
  apply elem_of_cons in Hr as [->|Hr].
  - destruct Hbad. by exists z.
  - destruct (IH Hr) as [e ->]. by eexists.
Qed.

Lemma astype_int_aligned `{Py : Interpreter} (df0 : list (Row string))
    (df : list (Row Z)) p t :
  astype_int df0 = inr df → aligned df p t ↔ aligned df0 p t.
Proof. intros Hc. unfold aligned. by rewrite (astype_int_pairs _ _ Hc). Qed.

(** ** Listings read back *)

Lemma append_nil_r (s : string) : s ++ "" = s.
Proof.
  induction s as [|c s IH]; [done|].
  change (String c (s ++ "") = String c s). by rewrite IH.
Qed.

Lemma rev_app_append (a b x : string) :
  String.rev_app a b ++ x = String.rev_app a (b ++ x).
Proof. revert b. induction a as [|c a IH]; intros b; [done|]. apply IH. Qed.

Lemma rev_cons_append c (cur x : string) :
  String.rev (String c cur) ++ x = String.rev cur ++ String c x.
Proof. unfold String.rev. simpl. by rewrite !rev_app_append. Qed.

Lemma append_cons c (a b : string) : String c a ++ b = String c (a ++ b).
Proof. reflexivity. Qed.

Lemma append_nil_l (b : string) : "" ++ b = b.
Proof. reflexivity. Qed.

(** [has_sep] finds the occurrences of [", "]. *)
Lemma has_sep_spec (s : string) :
  has_sep s = true ↔ ∃ a b, s = a ++ ", " ++ b.
Proof.
  induction s as [|c s IH].
  - split; [done|]. intros ([|c a] & b & Heq); discriminate Heq.
  - destruct s as [|d s].
    + split; [done|]. intros ([|c' a] & b & Heq); [discriminate Heq|].
      rewrite append_cons in Heq. injection Heq as _ Heq.
      destruct a; discriminate Heq.
    + change (has_sep (String c (String d s)))
        with ((Ascii.eqb c "," && Ascii.eqb d " ") || has_sep (String d s)).
      rewrite orb_true_iff, andb_true_iff, IH, !Ascii.eqb_eq. split.
      * intros [[-> ->]|(a & b & Heq)].
        -- by exists "", s.
        -- exists (String c a), b. by rewrite append_cons, Heq.
      * intros ([|c' a] & b & Heq).
        -- left. rewrite append_nil_l in Heq.
           change (", " ++ b) with (String "," (String " " b)) in Heq.
           by injection Heq as -> -> _.
        -- right. rewrite append_cons in Heq. injection Heq as _ Heq.
           by exists a, b.
Qed.

Lemma has_sep_cons c d (x : string) :
  has_sep (String c (String d x)) = false →
  Ascii.eqb c "," && Ascii.eqb d " " = false ∧ has_sep (String d x) = false.
Proof.
  change (has_sep (String c (String d x)))
    with ((Ascii.eqb c "," && Ascii.eqb d " ") || has_sep (String d x)).
  by intros [-> ->]%orb_false_elim.
Qed.

Lemma entries_go_two cur c d (s : string) :
  entries_go cur (String c (String d s)) =
  if Ascii.eqb c "," && Ascii.eqb d " "
  then String.rev cur :: entries_go "" s
  else entries_go (String c cur) (String d s).
Proof. reflexivity. Qed.

Lemma entries_go_last (cur x : string) :
  has_sep x = false → entries_go cur x = [String.rev cur ++ x].
Proof.
  revert cur. induction x as [|c x IH]; intros cur Hs.
  - simpl. by rewrite append_nil_r.
  - destruct x as [|d x].
    + change (entries_go cur (String c "")) with [String.rev (String c cur)].
      by rewrite <- (append_nil_r (String.rev _)), rev_cons_append.
    + apply has_sep_cons in Hs as [Hc Hs].
      by rewrite entries_go_two, Hc, (IH _ Hs), rev_cons_append.
Qed.

Lemma entries_go_sep (cur x rest : string) :
  has_sep x = false →
  entries_go cur (x ++ ", " ++ rest) =
  (String.rev cur ++ x) :: entries_go "" rest.
Proof.
  revert cur. induction x as [|c x IH]; intros cur Hs.
  - change ("" ++ ", " ++ rest) with (String "," (String " " rest)).
    rewrite entries_go_two. simpl. by rewrite append_nil_r.
  - specialize (IH (String c cur)). destruct x as [|d x].
    + change (String c "" ++ ", " ++ rest)
        with (String c (String "," (String " " rest))).
      change ("" ++ ", " ++ rest) with (String "," (String " " rest)) in IH.
      rewrite entries_go_two.
      change (Ascii.eqb "," " ") with false. rewrite Bool.andb_false_r.
      by rewrite IH, rev_cons_append.
    + apply has_sep_cons in Hs as [Hc Hs].
      change (String c (String d x) ++ ", " ++ rest)
        with (String c (String d (x ++ ", " ++ rest))).
      change (String d x ++ ", " ++ rest)
        with (String d (x ++ ", " ++ rest)) in IH.
      by rewrite entries_go_two, Hc, IH, rev_cons_append.
Qed.

(** Splitting what was joined gives the pieces back when no piece has the
    separator in it. *)
Lemma entries_join (l : list string) :
  l ≠ [] → Forall (λ v, has_sep v = false) l → entries (join ", " l) = l.
Proof.
  induction l as [|v l IH]; [done|]. intros _ Hf.
  apply Forall_cons in Hf as [Hv Hf]. destruct l as [|w l].
  - unfold entries. simpl. by rewrite entries_go_last.
  - change (join ", " (v :: w :: l)) with (v ++ ", " ++ join ", " (w :: l)).
    unfold entries. rewrite entries_go_sep by done. f_equal. by apply IH.
Qed.

Section Listings.
Context `{HashOrder} {B : Type}.
Context (key val : Row B → string) (df : list (Row B)).
Hypothesis val_sep_free : ∀ r, r ∈ df → has_sep (val r) = false.

Local Abbreviation group k := (val <$> filter (λ r, key r = k) df).

Lemma entries_of_listing k v0 :
  related key val df k v0 →
  entries (join ", " (sorted (py_set (group k)))) = sorted (py_set (group k)).
Proof using val_sep_free.
  intros Hv0. apply entries_join.
  - intros Hnil.
    assert (v0 ∈ sorted (py_set (group k))) as Hin.
    { apply elem_of_sorted, elem_of_list_to_set. by apply elem_of_group. }
    rewrite Hnil in Hin. by apply elem_of_nil in Hin.
  - apply Forall_forall. intros v Hv.
    apply elem_of_sorted, elem_of_list_to_set, elem_of_group in Hv
      as (r & Hr & _ & <-).
    by apply val_sep_free.
Qed.

Lemma length_sorted (X : gset string) : length (sorted X) = size X.
Proof.
  unfold sorted. by rewrite merge_sort_Permutation, set_iter_perm.
Qed.

Lemma listed_related k v :
  listed (apply (λ x, join ", " (sorted (py_set x))) (groupby key val df))
    k v ↔
  related key val df k v.
Proof using val_sep_free.
  unfold listed. split.
  - intros (s & [[v0 Hv0] ->]%elem_of_apply_groupby & Hv).
    cbv beta in Hv. rewrite (entries_of_listing k v0 Hv0) in Hv.
    by apply elem_of_sorted, elem_of_list_to_set, elem_of_group in Hv.
  - intros Hv. eexists. split.
    + apply elem_of_apply_groupby. split; [by exists v|done].
    + cbv beta. rewrite (entries_of_listing k v Hv).
      by apply elem_of_sorted, elem_of_list_to_set, elem_of_group.
Qed.

Lemma count_is_entries k n s :
  (k, n) ∈ apply nunique (groupby key val df) →
  (k, s) ∈ apply (λ x, join ", " (sorted (py_set x))) (groupby key val df) →
  n = length (entries s).
Proof using val_sep_free.
  intros [[v0 Hv0] ->]%elem_of_apply_groupby [_ ->]%elem_of_apply_groupby.
  cbv beta. rewrite (entries_of_listing k v0 Hv0), length_sorted.
  apply nunique_size.
Qed.
End Listings.

(** ** Rows of a report *)

Lemma ascending_keys_filter {V} (P : string * V → Prop)
    `{∀ kx, Decision (P kx)} (l : list (string * V)) :
  ascending l.*1 → ascending (filter P l).*1.
Proof.
  unfold ascending. induction l as [|kx l IH]; [done|].
  rewrite fmap_cons. intros [Hs Hk]%StronglySorted_inv.
  rewrite filter_cons. destruct (decide (P kx)); [|by apply IH].
  rewrite fmap_cons. constructor; [by apply IH|].
  rewrite Forall_forall in Hk |- *. intros k (kx' & -> & Hin)%list_elem_of_fmap.
  apply list_elem_of_filter in Hin as [_ Hin]. apply Hk.
  by apply list_elem_of_fmap_2.
Qed.

Lemma report_keys {B V} (f : list string → V) (key val : Row B → string)
    (df : list (Row B)) :
  ascending (apply f (groupby key val df)).*1 ∧
  ∀ k, k ∈ (apply f (groupby key val df)).*1 ↔ ∃ v, related key val df k v.
Proof.
  rewrite apply_keys, groupby_keys. split.
  - apply group_keys_ascending.
  - apply elem_of_group_keys.
Qed.

Lemma listing_row `{HashOrder} {B} (key val : Row B → string)
    (df : list (Row B)) k s :
  (k, s) ∈ apply (λ x, join ", " (sorted (py_set x))) (groupby key val df) →
  ∃ vs, s = join ", " vs ∧ ascending vs ∧ ∀ v, v ∈ vs ↔ related key val df k v.
Proof.
  intros [_ ->]%elem_of_apply_groupby.
  exists (sorted (py_set (val <$> filter (λ r, key r = k) df))).
  split; [done|]. split.
  - apply sorted_ascending.
  - intros v. by rewrite elem_of_sorted, elem_of_py_set, elem_of_group.
Qed.

Lemma count_row {B} (key val : Row B → string) (df : list (Row B)) k n :
  (k, n) ∈ apply nunique (groupby key val df) →
  ∃ X : gset string, (∀ v, v ∈ X ↔ related key val df k v) ∧ n = size X.
Proof.
  intros [_ ->]%elem_of_apply_groupby.
  exists (py_set (val <$> filter (λ r, key r = k) df)). split.
  - intros v. by rewrite elem_of_py_set, elem_of_group.
  - apply nunique_size.
Qed.

(** ** The run as a whole *)

Lemma process_psl_file_raise `{Py : Interpreter} `{HashOrder}
    (df0 : list (Row string)) e fs :
  astype_int df0 = inl e → process_psl_file df0 fs = (inl e, fs).
Proof.
  intros He. unfold process_psl_file, mbind, io_bind, raise_or_ret.
  by rewrite He.
Qed.

Lemma process_psl_file_same `{Py : Interpreter} (H1 H2 : HashOrder)
    (df1 df2 : list (Row string)) (d1 d2 : list (Row Z)) fs :
  astype_int df1 = inr d1 → astype_int df2 = inr d2 →
  (∀ p t, aligned d1 p t ↔ aligned d2 p t) →
  process_psl_file (H := H1) df1 fs = process_psl_file (H := H2) df2 fs ∧
  ∃ fs', process_psl_file (H := H1) df1 fs = (inr (), fs').
Proof.
  intros E1 E2 Hsame.
  unfold process_psl_file, mbind, io_bind, raise_or_ret, to_csv.
  rewrite E1, E2.
  rewrite (target_counts_same d1 d2 Hsame), (probe_counts_same d1 d2 Hsame).
  rewrite (probe_hits_same H1 H2 d1 d2 Hsame).
  rewrite (target_hits_same H1 H2 d1 d2 Hsame).
  rewrite (probes_hitting_all_targets_same d1 d2 Hsame).
  split; [done|by eexists].
Qed.

(** * The claims *)

(** C1. On a frame with at least one row, a probe is in the report of the
    probes hitting all targets exactly when the targets it aligns to are the
    targets met in the frame, no more and no fewer; the report is in
    ascending order of the probe names. *)
Theorem universal_probes_correct {B} (df : list (Row B)) :
  df ≠ [] →
  (∀ p, p ∈ probes_hitting_all_targets df ↔
        ∀ t, aligned df p t ↔ ∃ q, aligned df q t) ∧
  ascending (probes_hitting_all_targets df).
Proof.
  intros Hne. unfold probes_hitting_all_targets, probe_target_groups. split.
  - intros p. rewrite list_elem_of_fmap. split.
    + intros ([p' X] & -> & [HX Hin]%list_elem_of_filter). simpl in *.
      apply elem_of_apply_groupby in Hin as [_ ->]. intros t.
      rewrite <- elem_of_all_targets, <- HX, elem_of_py_set, elem_of_group.
      by rewrite related_probe.
    + intros Hp. exists (p, all_targets df). split; [done|].
      apply list_elem_of_filter. split; [done|].
      apply elem_of_apply_groupby. split.
      * destruct df as [|r df]; [done|]. exists (tName r).
        apply related_probe, Hp. exists (qName r).
        apply related_probe. exists r. by rewrite elem_of_cons; auto.
      * apply set_eq. intros t.
        rewrite elem_of_all_targets, elem_of_py_set, elem_of_group.
        by rewrite related_probe.
  - apply ascending_keys_filter, report_keys.
Qed.

Lemma universal_probes_correct_witness :
  example1_int ≠ [] ∧
  (∀ p, p ∈ probes_hitting_all_targets example1_int ↔
        ∀ t, aligned example1_int p t ↔ ∃ q, aligned example1_int q t) ∧
  ascending (probes_hitting_all_targets example1_int).
Proof.
  split; [discriminate|]. apply (universal_probes_correct example1_int).
  discriminate.
Defined.

(** C2. When the [blockCount] cell of some row does not convert to an
    integer, the run raises and the files are as they were before it: none of
    the five reports is written, whatever the other rows are. A cell does not
    convert when it does not parse as an integer, and also when its integer
    is outside the int64. *)
Theorem malformed_block_count_aborts `{Py : Interpreter} `{HashOrder}
    (df0 : list (Row string)) (r : Row string) (fs : Files) :
  r ∈ df0 → ¬ converts (blockCount r) →
  ∃ e, process_psl_file df0 fs = (inl e, fs).
Proof.
  intros Hr Hbad. destruct (astype_int_raises df0 r Hr Hbad) as [e He].
  exists e. by apply process_psl_file_raise.
Qed.

Lemma malformed_block_count_aborts_witness :
  hit "p2" "t1" "NA" ∈ example4 ∧
  ¬ converts (Py := cpython) (blockCount (hit "p2" "t1" "NA")) ∧
  ∃ e, process_psl_file (Py := cpython) (H := run_forward) example4 [] =
       (inl e, []).
Proof.
  assert (hit "p2" "t1" "NA" ∈ example4) as Hin.
  { unfold example4. apply elem_of_cons. right. apply elem_of_cons. by left. }
  assert (¬ converts (Py := cpython) (blockCount (hit "p2" "t1" "NA")))
    as Hbad.
  { intros [z Hz]. vm_compute in Hz. discriminate. }
  split; [exact Hin|]. split; [exact Hbad|].
  exact (malformed_block_count_aborts (Py := cpython) (H := run_forward)
           example4 _ [] Hin Hbad).
Defined.

(** C3. On the frame with no rows the run does not raise; it writes the five
    files, each with its header and no row, and each of the five reports is
    the empty list. *)
Theorem empty_input_reports `{Py : Interpreter} `{HashOrder} (fs : Files) :
  process_psl_file [] fs =
    (inr (),
     (fs ++
      [("Unique_Target_Counts.csv",
        mkFrame ["Target (Column 14)"; "Unique Probes (Column 10)"] []);
       ("Unique_Probe_Counts.csv",
        mkFrame ["Probe (Column 10)"; "Unique Targets (Column 14)"] []);
       ("Probe_to_Target_Hits.csv",
        mkFrame ["Probe (Column 10)"; "Target Hits (Column 14)"] []);
       ("Target_to_Probe_Hits.csv",
        mkFrame ["Target (Column 14)"; "Probes (Column 10)"] []);
       ("Probes_Hitting_All_Targets.csv",
        mkFrame ["Probes Hitting All Targets"] [])])%list) ∧
  target_counts (B := Z) [] = [] ∧
  probe_counts (B := Z) [] = [] ∧
  probe_hits (B := Z) [] = [] ∧
  target_hits (B := Z) [] = [] ∧
  probes_hitting_all_targets (B := Z) [] = [].
Proof.
  repeat split. unfold process_psl_file, mbind, io_bind, to_csv. simpl.
  by rewrite <- !(assoc_L (++)).
Qed.

(** C4. In the probe-to-targets report the value of a probe is its targets,
    each once, in ascending order, joined with a comma and a space; in the
    target-to-probes report the value of a target is its probes in the same
    way; in both the keys are the names met in the frame, in ascending
    order. *)
Theorem hit_listings_correct `{HashOrder} {B} (df : list (Row B)) :
  (ascending (probe_hits df).*1 ∧
   (∀ p, p ∈ (probe_hits df).*1 ↔ ∃ t, aligned df p t) ∧
   (∀ p s, (p, s) ∈ probe_hits df →
      ∃ ts, s = join ", " ts ∧ ascending ts ∧ ∀ t, t ∈ ts ↔ aligned df p t)) ∧
  (ascending (target_hits df).*1 ∧
   (∀ t, t ∈ (target_hits df).*1 ↔ ∃ p, aligned df p t) ∧
   (∀ t s, (t, s) ∈ target_hits df →
      ∃ ps, s = join ", " ps ∧ ascending ps ∧ ∀ p, p ∈ ps ↔ aligned df p t)).
Proof.
  unfold probe_hits, target_hits. split.
  - destruct (report_keys (λ x, join ", " (sorted (py_set x)))
                qName tName df) as [Hasc Hkeys].
    split; [done|]. split.
    + intros p. rewrite Hkeys. by setoid_rewrite related_probe.
    + intros p s (ts & -> & Hts & Hm)%listing_row. exists ts.
      split; [done|]. split; [done|]. intros t.
      by rewrite Hm, related_probe.
  - destruct (report_keys (λ x, join ", " (sorted (py_set x)))
                tName qName df) as [Hasc Hkeys].
    split; [done|]. split.
    + intros t. rewrite Hkeys. by setoid_rewrite related_target.
    + intros t s (ps & -> & Hps & Hm)%listing_row. exists ps.
      split; [done|]. split; [done|]. intros p.
      by rewrite Hm, related_target.
Qed.

(** C5. The target counts give, for each target met in the frame, the size of
    the set of probes aligned to it, and the probe counts give, for each
    probe met in the frame, the size of the set of targets it aligns to; the
    rows of both are in ascending order of the key. *)
Theorem counts_correct {B} (df : list (Row B)) :
  (ascending (target_counts df).*1 ∧
   (∀ t, t ∈ (target_counts df).*1 ↔ ∃ p, aligned df p t) ∧
   (∀ t n, (t, n) ∈ target_counts df →
      ∃ P : gset string, (∀ p, p ∈ P ↔ aligned df p t) ∧ n = size P)) ∧
  (ascending (probe_counts df).*1 ∧
   (∀ p, p ∈ (probe_counts df).*1 ↔ ∃ t, aligned df p t) ∧
   (∀ p n, (p, n) ∈ probe_counts df →
      ∃ T : gset string, (∀ t, t ∈ T ↔ aligned df p t) ∧ n = size T)).
Proof.
  unfold target_counts, probe_counts. split.
  - destruct (report_keys nunique tName qName df) as [Hasc Hkeys].
    split; [done|]. split.
    + intros t. rewrite Hkeys. by setoid_rewrite related_target.
    + intros t n (P & Hm & ->)%count_row. exists P. split; [|done].
      intros p. by rewrite Hm, related_target.
  - destruct (report_keys nunique qName tName df) as [Hasc Hkeys].
    split; [done|]. split.
    + intros p. rewrite Hkeys. by setoid_rewrite related_probe.
    + intros p n (T & Hm & ->)%count_row. exists T. split; [|done].
      intros t. by rewrite Hm, related_probe.
Qed.

(** C6. A frame and a frame with the same pairs of probe and target, each
    pair in one row only, give the same five reports: the rows that repeat a
    pair add nothing to any of them. *)
Theorem duplicate_pairs_contribute_once `{HashOrder} {B}
    (df df' : list (Row B)) :
  NoDup (pair_of <$> df') →
  (∀ p t, aligned df p t ↔ aligned df' p t) →
  target_counts df = target_counts df' ∧
  probe_counts df = probe_counts df' ∧
  probe_hits df = probe_hits df' ∧
  target_hits df = target_hits df' ∧
  probes_hitting_all_targets df = probes_hitting_all_targets df'.
Proof.
  intros _ Hsame.
  split; [by apply target_counts_same|].
  split; [by apply probe_counts_same|].
  split; [by apply probe_hits_same|].
  split; [by apply target_hits_same|].
  by apply probes_hitting_all_targets_same.
Qed.

Lemma duplicate_pairs_contribute_once_witness :
  let df := [hit "p1" "t1" 3%Z; hit "p2" "t1" 1%Z; hit "p1" "t1" 1%Z] in
  let df' := [hit "p2" "t1" 1%Z; hit "p1" "t1" 3%Z] in
  NoDup (pair_of <$> df') ∧
  (∀ p t, aligned df p t ↔ aligned df' p t) ∧
  target_counts df = target_counts df' ∧
  probe_counts df = probe_counts df' ∧
  probe_hits (H := run_forward) df = probe_hits (H := run_forward) df' ∧
  target_hits (H := run_forward) df = target_hits (H := run_forward) df' ∧
  probes_hitting_all_targets df = probes_hitting_all_targets df'.
Proof.
  intros df df'.
  assert (NoDup (pair_of <$> df')) as Hnd.
  { apply (bool_decide_unpack (NoDup (pair_of <$> df'))). vm_compute.
    exact I. }
  assert (∀ p t, aligned df p t ↔ aligned df' p t) as Hsame.
  { intros p t. unfold aligned, df, df', pair_of. simpl.
    rewrite !elem_of_cons, !elem_of_nil. tauto. }
  split; [exact Hnd|]. split; [exact Hsame|].
  exact (duplicate_pairs_contribute_once (H := run_forward) df df'
           Hnd Hsame).
Defined.

(** C7, as the claim has it, fails: a probe named [a, b] is one probe of its
    target and two entries of the listing. *)
Lemma count_listing_counterexample :
  ¬ counts_match_listings (target_counts comma_probe)
      (target_hits (H := run_forward) comma_probe).
Proof.
  intros [_ Hrows].
  specialize (Hrows "t" 1%nat "a, b").
  assert (1%nat = length (entries "a, b")) as Hlen; [|discriminate Hlen].
  apply Hrows; vm_compute; by left.
Qed.

(** C7, amended. When no probe or target name has a comma followed by a
    space in it, the count of every target is the number of entries of its
    listing of probes, the count of every probe is the number of entries of
    its listing of targets, and a count report has the keys of its listing
    report. *)
Theorem count_listing_consistency `{HashOrder} {B} (df : list (Row B)) :
  sep_free df →
  counts_match_listings (target_counts df) (target_hits df) ∧
  counts_match_listings (probe_counts df) (probe_hits df).
Proof.
  intros Hfree. unfold sep_free in Hfree. rewrite Forall_forall in Hfree.
  unfold counts_match_listings, target_counts, target_hits, probe_counts,
    probe_hits.
  split; (split; [by rewrite !apply_keys|]); intros k n s.
  - apply count_is_entries. intros r Hr. by apply Hfree.
  - apply count_is_entries. intros r Hr. by apply Hfree.
Qed.

Lemma count_listing_consistency_witness :
  sep_free example1_int ∧
  counts_match_listings (target_counts example1_int)
    (target_hits (H := run_backward) example1_int) ∧
  counts_match_listings (probe_counts example1_int)
    (probe_hits (H := run_backward) example1_int).
Proof.
  assert (sep_free example1_int) as Hfree.
  { apply (bool_decide_unpack (sep_free example1_int)). vm_compute.
    exact I. }
  split; [exact Hfree|].
  exact (count_listing_consistency (H := run_backward) example1_int Hfree).
Defined.

(** C8, as the claim has it, fails: with the probe [a, b] on target [t], the
    listing of [t] has the entry [a], and no probe [a] has a listing. *)
Lemma membership_symmetry_counterexample :
  ¬ ∀ p t, listed (target_hits (H := run_forward) comma_probe) t p ↔
           listed (probe_hits (H := run_forward) comma_probe) p t.
Proof.
  intros Hsym. destruct (Hsym "a" "t") as [Hto _].
  destruct Hto as (s & Hs & _).
  - exists "a, b". split; vm_compute; by left.
  - vm_compute in Hs. apply list_elem_of_singleton in Hs. discriminate Hs.
Qed.

(** C8, amended. When no probe or target name has a comma followed by a
    space in it, a probe is an entry of the listing of a target exactly when
    the target is an entry of the listing of the probe, and both say that
    the probe aligns to the target in the frame. *)
Theorem membership_symmetry `{HashOrder} {B} (df : list (Row B)) :
  sep_free df →
  ∀ p t,
    (listed (target_hits df) t p ↔ listed (probe_hits df) p t) ∧
    (listed (probe_hits df) p t ↔ aligned df p t).
Proof.
  intros Hfree p t. unfold sep_free in Hfree. rewrite Forall_forall in Hfree.
  unfold target_hits, probe_hits.
  rewrite !listed_related by (intros r Hr; by apply Hfree).
  by rewrite related_target, related_probe.
Qed.

Lemma membership_symmetry_witness :
  sep_free example1_int ∧
  ∀ p t,
    (listed (target_hits (H := run_forward) example1_int) t p ↔
     listed (probe_hits (H := run_forward) example1_int) p t) ∧
    (listed (probe_hits (H := run_forward) example1_int) p t ↔
     aligned example1_int p t).
Proof.
  assert (sep_free example1_int) as Hfree.
  { apply (bool_decide_unpack (sep_free example1_int)). vm_compute.
    exact I. }
  split; [exact Hfree|].
  exact (membership_symmetry (H := run_forward) example1_int Hfree).
Defined.

(** C9. Two runs on the same frame end the same way, whatever order each
    of them iterates its sets in: the same exception, or the same five files
    with the same rows in the same order. *)
Theorem process_psl_file_deterministic `{Py : Interpreter}
    (H1 H2 : HashOrder) (df0 : list (Row string)) (fs : Files) :
  process_psl_file (H := H1) df0 fs = process_psl_file (H := H2) df0 fs.
Proof.
  destruct (astype_int df0) as [e|df] eqn:Hc.
  - by rewrite !(process_psl_file_raise df0 e fs Hc).
  - by apply (process_psl_file_same H1 H2 df0 df0 df df fs Hc Hc).
Qed.

(** C10, as the claim has it, fails: a block count can parse as an integer
    and not be one of an int64. The frame with the block count 2^63 and the
    frame with the block count 1 have the same pair of probe and target; the
    run on the first raises and writes nothing, the run on the second writes
    the five files. *)
Lemma reports_factor_through_pairs_counterexample :
  ¬ ∀ df1 df2 : list (Row string),
      Forall (λ r, parses_as_int (Py := cpython) (blockCount r)) df1 →
      Forall (λ r, parses_as_int (Py := cpython) (blockCount r)) df2 →
      (∀ p t, aligned df1 p t ↔ aligned df2 p t) →
      process_psl_file (Py := cpython) (H := run_forward) df1 [] =
      process_psl_file (Py := cpython) (H := run_forward) df2 [].
Proof.
  intros Hsame. specialize (Hsame wide_block_count example_one).
  assert (process_psl_file (Py := cpython) (H := run_forward)
            wide_block_count [] = (inl OverflowError, [])) as Hwide
    by (by vm_compute).
  rewrite Hwide in Hsame.
  assert ((inl OverflowError, []) =
          process_psl_file (Py := cpython) (H := run_forward) example_one [])
    as Hrun; [|vm_compute in Hrun; discriminate Hrun].
  apply Hsame.
  - repeat constructor. by exists (2 ^ 63)%Z.
  - repeat constructor. by exists 1%Z.
  - done.
Qed.

(** C10, amended. Two frames whose [blockCount] cells all convert, that is,
    parse as integers of an int64, and whose pairs of probe and target are
    the same end in the same five files, and the run does not raise: the
    order of the rows, the repetitions, the block counts and the cells of
    the other columns do not show in the reports. *)
Theorem reports_factor_through_pairs `{Py : Interpreter} `{HashOrder}
    (df1 df2 : list (Row string)) (fs : Files) :
  Forall (λ r, converts (blockCount r)) df1 →
  Forall (λ r, converts (blockCount r)) df2 →
  (∀ p t, aligned df1 p t ↔ aligned df2 p t) →
  process_psl_file df1 fs = process_psl_file df2 fs ∧
  ∃ fs', process_psl_file df1 fs = (inr (), fs').
Proof.
  intros [d1 E1]%astype_int_converts [d2 E2]%astype_int_converts Hsame.
  apply (process_psl_file_same _ _ df1 df2 d1 d2 fs E1 E2).
  intros p t.
  by rewrite (astype_int_aligned df1 d1 p t E1),
             (astype_int_aligned df2 d2 p t E2).
Qed.

Lemma reports_factor_through_pairs_witness :
  Forall (λ r, converts (Py := cpython) (blockCount r)) example1 ∧
  Forall (λ r, converts (Py := cpython) (blockCount r)) example1_shuffled ∧
  (∀ p t, aligned example1 p t ↔ aligned example1_shuffled p t) ∧
  process_psl_file (Py := cpython) (H := run_backward) example1 [] =
  process_psl_file (Py := cpython) (H := run_backward) example1_shuffled [] ∧
  ∃ fs', process_psl_file (Py := cpython) (H := run_backward) example1 [] =
         (inr (), fs').
Proof.
  assert (Forall (λ r, converts (Py := cpython) (blockCount r)) example1)
    as Hp1.
  { repeat constructor; eexists; vm_compute; reflexivity. }
  assert (Forall (λ r, converts (Py := cpython) (blockCount r))
            example1_shuffled) as Hp2.
  { repeat constructor; eexists; vm_compute; reflexivity. }
  assert (∀ p t, aligned example1 p t ↔ aligned example1_shuffled p t)
    as Hsame.
  { intros p t. unfold aligned, example1, example1_shuffled, pair_of. simpl.
    rewrite !elem_of_cons, !elem_of_nil. tauto. }
  split; [exact Hp1|]. split; [exact Hp2|]. split; [exact Hsame|].
  exact (reports_factor_through_pairs (Py := cpython) (H := run_backward)
           example1 example1_shuffled [] Hp1 Hp2 Hsame).
Defined.

(** * Reading the PSL file: lemmas *)

(** ** Reversal, first and last character *)

Lemma append_assoc (a b c : string) : (a ++ b) ++ c = a ++ b ++ c.
Proof.
  induction a as [|x a IH]; [done|]. by rewrite !append_cons, IH.
Qed.

Lemma rev_app_spec (a b : string) :
  String.rev_app a b = String.rev a ++ b.
Proof. unfold String.rev. by rewrite rev_app_append. Qed.

Lemma rev_cons c (s : string) :
  String.rev (String c s) = String.rev s ++ String c "".
Proof. by rewrite <- (append_nil_r (String.rev _)), rev_cons_append. Qed.

Lemma rev_append (a b : string) :
  String.rev (a ++ b) = String.rev b ++ String.rev a.
Proof.
  induction a as [|c a IH].
  - by rewrite append_nil_l, append_nil_r.
  - by rewrite append_cons, !rev_cons, IH, append_assoc.
Qed.

Lemma rev_involutive (s : string) : String.rev (String.rev s) = s.
Proof.
  induction s as [|c s IH]; [done|].
  by rewrite rev_cons, rev_append, IH.
Qed.

Lemma last_char_append_cons (a : string) c (b : string) :
  last_char (a ++ String c b) = last_char (String c b).
Proof.
  induction a as [|x a IH]; [done|]. rewrite append_cons.
  destruct a as [|y a]; [done|]. rewrite append_cons in IH |- *.
  exact IH.
Qed.

Lemma first_char_rev (s : string) : first_char (String.rev s) = last_char s.
Proof.
  induction s as [|c s IH]; [done|]. rewrite rev_cons.
  destruct s as [|d s]; [done|].
  change (last_char (String c (String d s))) with (last_char (String d s)).
  rewrite <- IH, (rev_cons d s). by destruct (String.rev s).
Qed.

Lemma last_char_rev (s : string) : last_char (String.rev s) = first_char s.
Proof. by rewrite <- first_char_rev, rev_involutive. Qed.

(** ** [strip] *)

(** On a character of one byte, [is_space] is [Py_UNICODE_ISSPACE]. *)
Lemma is_space_spec c :
  is_space c = (ord c <? 0x80)%N && Py_UNICODE_ISSPACE (ord c).
Proof. by destruct c as [[] [] [] [] [] [] [] []]. Qed.

Lemma is_cont_ord c : is_cont c = true → (0x80 ≤ ord c)%N.
Proof.
  unfold is_cont. intros [Hlo%N.leb_le _]%andb_true_iff. exact Hlo.
Qed.

Lemma code2_Some a b ch :
  code2 a b = Some ch → (0x80 ≤ ord a)%N ∧ is_cont b = true.
Proof.
  unfold code2.
  destruct ((0xC2 <=? ord a) && (ord a <=? 0xDF))%N eqn:Ha; [|done].
  destruct (is_cont b); [|done]. intros _.
  apply andb_true_iff in Ha as [Hlo%N.leb_le _]. split; [lia|done].
Qed.

Lemma code3_Some a b c ch :
  code3 a b c = Some ch →
  (0x80 ≤ ord a)%N ∧ is_cont b = true ∧ is_cont c = true.
Proof.
  unfold code3.
  destruct ((0xE0 <=? ord a) && (ord a <=? 0xEF))%N eqn:Ha; [|done].
  destruct (is_cont b); [|done]. destruct (is_cont c); [|done]. intros _.
  apply andb_true_iff in Ha as [Hlo%N.leb_le _]. split; [lia|done].
Qed.

Lemma code4_Some a b c d ch :
  code4 a b c d = Some ch →
  (0x80 ≤ ord a)%N ∧ is_cont b = true ∧ is_cont c = true ∧ is_cont d = true.
Proof.
  unfold code4.
  destruct ((0xF0 <=? ord a) && (ord a <=? 0xF4))%N eqn:Ha; [|done].
  destruct (is_cont b); [|done]. destruct (is_cont c); [|done].
  destruct (is_cont d); [|done]. intros _.
  apply andb_true_iff in Ha as [Hlo%N.leb_le _]. split; [lia|done].
Qed.

(** The bytes of a white space of two or three bytes are outside the ASCII
    range. *)
Lemma space2_ord a b :
  space2 a b = true → (0x80 ≤ ord a)%N ∧ (0x80 ≤ ord b)%N.
Proof.
  unfold space2. destruct (code2 a b) as [ch|] eqn:Hch; [|done]. intros _.
  apply code2_Some in Hch as [Ha Hb%is_cont_ord]. done.
Qed.

Lemma space3_ord a b c :
  space3 a b c = true → (0x80 ≤ ord a)%N ∧ (0x80 ≤ ord c)%N.
Proof.
  unfold space3. destruct (code3 a b c) as [ch|] eqn:Hch; [|done]. intros _.
  apply code3_Some in Hch as (Ha & _ & Hc%is_cont_ord). done.
Qed.

Section StripBy.
Context (sp1 : ascii → bool) (sp2 : ascii → ascii → bool)
  (sp3 : ascii → ascii → ascii → bool).

Lemma lstrip_by_first_n (n : nat) (s : string) :
  (String.length s ≤ n)%nat →
  lstrip_by sp1 sp2 sp3 s = "" ∨
  ∃ c, first_char (lstrip_by sp1 sp2 sp3 s) = Some c ∧ sp1 c = false.
Proof.
  revert s. induction n as [|n IH]; intros s Hlen.
  { destruct s; [by left|simpl in Hlen; lia]. }
  destruct s as [|c s1]; [by left|]. simpl in Hlen. simpl.
  destruct (sp1 c) eqn:Hc; [apply IH; lia|].
  destruct s1 as [|c2 s2]; [right; by exists c|]. simpl in Hlen.
  destruct (sp2 c c2); [apply IH; lia|].
  destruct s2 as [|c3 s3]; [right; by exists c|]. simpl in Hlen.
  destruct (sp3 c c2 c3); [apply IH; lia|]. right. by exists c.
Qed.

Lemma lstrip_by_first (s : string) :
  lstrip_by sp1 sp2 sp3 s = "" ∨
  ∃ c, first_char (lstrip_by sp1 sp2 sp3 s) = Some c ∧ sp1 c = false.
Proof. by apply (lstrip_by_first_n (String.length s)). Qed.

(** What is left is the end of the text. *)
Lemma lstrip_by_suffix_n (n : nat) (s : string) :
  (String.length s ≤ n)%nat → ∃ p, s = p ++ lstrip_by sp1 sp2 sp3 s.
Proof.
  revert s. induction n as [|n IH]; intros s Hlen.
  { destruct s; [by exists ""|simpl in Hlen; lia]. }
  destruct s as [|c s1]; [by exists ""|]. simpl in Hlen. simpl.
  destruct (sp1 c).
  { destruct (IH s1) as [p Hp]; [lia|]. exists (String c p).
    rewrite append_cons. by f_equal. }
  destruct s1 as [|c2 s2]; [by exists ""|]. simpl in Hlen.
  destruct (sp2 c c2).
  { destruct (IH s2) as [p Hp]; [lia|]. exists (String c (String c2 p)).
    rewrite !append_cons. by do 2 f_equal. }
  destruct s2 as [|c3 s3]; [by exists ""|]. simpl in Hlen.
  destruct (sp3 c c2 c3); [|by exists ""].
  destruct (IH s3) as [p Hp]; [lia|].
  exists (String c (String c2 (String c3 p))).
  rewrite !append_cons. by do 3 f_equal.
Qed.

Lemma lstrip_by_last (s : string) :
  lstrip_by sp1 sp2 sp3 s = "" ∨
  last_char (lstrip_by sp1 sp2 sp3 s) = last_char s.
Proof.
  destruct (lstrip_by_suffix_n (String.length s) s) as [p Hp]; [done|].
  destruct (lstrip_by sp1 sp2 sp3 s) as [|c r]; [by left|]. right.
  by rewrite Hp, last_char_append_cons.
Qed.

Lemma lstrip_by_id c (s : string) :
  sp1 c = false → (∀ x, sp2 c x = false) → (∀ x y, sp3 c x y = false) →
  lstrip_by sp1 sp2 sp3 (String c s) = String c s.
Proof.
  intros H1 H2 H3. simpl. rewrite H1.
  destruct s as [|c2 s2]; [done|]. rewrite H2.
  destruct s2 as [|c3 s3]; [done|]. by rewrite H3.
Qed.
End StripBy.

Lemma lstrip_first (s : string) :
  lstrip s = "" ∨ ∃ c, first_char (lstrip s) = Some c ∧ is_space c = false.
Proof. apply lstrip_by_first. Qed.

(** A stripped text is empty or has no white space at either end. *)
Lemma strip_ends (s : string) :
  strip s = "" ∨
  (∃ c, first_char (strip s) = Some c ∧ is_space c = false) ∧
  (∃ c, last_char (strip s) = Some c ∧ is_space c = false).
Proof.
  unfold strip, rstrip.
  destruct (lstrip_by_first is_space (λ b a, space2 a b)
              (λ c b a, space3 a b c) (String.rev (lstrip s)))
    as [-> |(c & Hc & Hsp)]; [by left|].
  right. split.
  - rewrite first_char_rev.
    destruct (lstrip_by_last is_space (λ b a, space2 a b)
                (λ c b a, space3 a b c) (String.rev (lstrip s)))
      as [Hnil| ->].
    { by rewrite Hnil in Hc. }
    rewrite last_char_rev.
    destruct (lstrip_first s) as [Hnil|Hfirst]; [|done].
    by rewrite Hnil in Hc.
  - rewrite last_char_rev. by exists c.
Qed.

Lemma not_space_Some (o : option ascii) :
  not_space o = true →
  ∃ c, o = Some c ∧ is_space c = false ∧ (ord c < 0x80)%N.
Proof.
  destruct o as [c|]; [|done]. simpl.
  intros [Hc%Nat.ltb_lt Hsp%negb_true_iff]%andb_true_iff. exists c.
  split; [done|]. split; [done|]. unfold nat_of_ascii in Hc. unfold ord. lia.
Qed.

(** A text that starts and ends with characters of the ASCII range that are
    no white space is what [strip] gives of it and of the line it is on. *)
Lemma strip_line (s : string) :
  not_space (first_char s) = true → not_space (last_char s) = true →
  strip (s ++ String LF "") = s.
Proof.
  intros (c & Hc & Hcs & Hc7)%not_space_Some (d & Hd & Hds & Hd7)%not_space_Some.
  unfold strip, rstrip, lstrip.
  destruct s as [|c' s]; [done|]. injection Hc as ->.
  rewrite append_cons, (lstrip_by_id _ _ _ c _ Hcs), <- append_cons.
  - rewrite rev_append.
    change (String.rev (String LF "")) with (String LF "").
    rewrite append_cons, append_nil_l.
    change (lstrip_by ?f ?g ?h (String LF (String.rev (String c s))))
      with (lstrip_by f g h (String.rev (String c s))).
    pose proof (first_char_rev (String c s)) as Hfirst. rewrite Hd in Hfirst.
    destruct (String.rev (String c s)) as [|x r] eqn:Hrev; [done|].
    injection Hfirst as ->. rewrite (lstrip_by_id _ _ _ d r Hds).
    + rewrite <- Hrev. apply rev_involutive.
    + intros x. destruct (space2 x d) eqn:Hx; [|done].
      apply space2_ord in Hx. lia.
    + intros x y. destruct (space3 y x d) eqn:Hx; [|done].
      apply space3_ord in Hx. lia.
  - intros x. destruct (space2 c x) eqn:Hx; [|done].
    apply space2_ord in Hx. lia.
  - intros x y. destruct (space3 c x y) eqn:Hx; [|done].
    apply space3_ord in Hx. lia.
Qed.

(** ** [split] *)

Lemma split_nonempty sep (s : string) : split sep s ≠ [].
Proof.
  destruct s as [|c s]; [done|]. simpl.
  destruct (Ascii.eqb c sep); [done|]. by destruct (split sep s).
Qed.

Lemma split_cons sep c (s : string) :
  Ascii.eqb c sep = false →
  ∃ x cells, split sep s = x :: cells ∧
             split sep (String c s) = String c x :: cells.
Proof.
  intros Hc. simpl. rewrite Hc.
  destruct (split sep s) as [|x cells] eqn:Hs;
    [by apply split_nonempty in Hs|].
  by exists x, cells.
Qed.

Lemma split_last sep (s : string) c :
  last_char s = Some c → Ascii.eqb c sep = false →
  ∃ y, last (split sep s) = Some y ∧ last_char y = Some c.
Proof.
  induction s as [|d s IH]; [done|]. intros Hl Hc.
  destruct s as [|e s].
  - injection Hl as ->. simpl. rewrite Hc. by exists (String c "").
  - change (last_char (String d (String e s)))
      with (last_char (String e s)) in Hl.
    destruct (IH Hl Hc) as (y & Hy & Hyc).
    destruct (Ascii.eqb d sep) eqn:Hd.
    + exists y. split; [|done].
      change (split sep (String d (String e s)))
        with (if Ascii.eqb d sep then "" :: split sep (String e s)
              else match split sep (String e s) with
                   | cell :: cells => String d cell :: cells
                   | [] => [String d ""]
                   end).
      rewrite Hd. rewrite last_cons, Hy. done.
    + destruct (split_cons sep d (String e s) Hd) as (x & cells & Hx & ->).
      rewrite Hx in Hy. destruct cells as [|x' cells].
      * injection Hy as ->. exists (String d y). split; [done|].
        destruct y; [done|]. done.
      * exists y. split; [exact Hy|done].
Qed.

Lemma tab_is_space c : is_space c = false → Ascii.eqb c TAB = false.
Proof.
  intros Hc. destruct (Ascii.eqb_spec c TAB) as [-> |]; [|done].
  discriminate Hc.
Qed.

(** Splitting what was joined with the separator gives the cells back when
    no cell has the separator in it. *)
Lemma split_cell sep (x : string) :
  has_char sep x = false → split sep x = [x].
Proof.
  induction x as [|c x IH]; [done|]. simpl.
  intros [Hc Hx]%orb_false_elim. rewrite Hc, (IH Hx). done.
Qed.

Lemma split_cell_sep sep (x rest : string) :
  has_char sep x = false →
  split sep (x ++ String sep rest) = x :: split sep rest.
Proof.
  induction x as [|c x IH].
  - intros _. rewrite append_nil_l. simpl. by rewrite Ascii.eqb_refl.
  - intros [Hc Hx]%orb_false_elim. rewrite append_cons.
    destruct (split_cons sep c (x ++ String sep rest) Hc)
      as (y & cells & Hy & ->).
    rewrite (IH Hx) in Hy. by injection Hy as <- <-.
Qed.

Lemma split_join sep (cells : list string) :
  cells ≠ [] → Forall (λ x, has_char sep x = false) cells →
  split sep (join (String sep "") cells) = cells.
Proof.
  induction cells as [|x cells IH]; [done|]. intros _ Hf.
  apply Forall_cons in Hf as [Hx Hf]. destruct cells as [|y cells].
  - by apply split_cell.
  - change (join (String sep "") (x :: y :: cells))
      with (x ++ String sep "" ++ join (String sep "") (y :: cells)).
    rewrite append_cons, append_nil_l, (split_cell_sep _ _ _ Hx).
    f_equal. by apply IH.
Qed.

(** ** [readlines] *)

Lemma readlines_line (x rest : string) :
  has_char LF x = false → has_char CR x = false →
  readlines (x ++ String LF rest) = (x ++ String LF "") :: readlines rest.
Proof.
  induction x as [|c x IH].
  - intros _ _. by rewrite !append_nil_l.
  - simpl. intros [Hc Hx]%orb_false_elim [Hc' Hx']%orb_false_elim.
    rewrite !append_cons. simpl. by rewrite Hc, Hc', (IH Hx Hx').
Qed.

Lemma readlines_file_of (lines : list string) :
  Forall (λ l, ∃ x, l = x ++ String LF "" ∧
                    has_char LF x = false ∧ has_char CR x = false) lines →
  readlines (file_of lines) = lines.
Proof.
  induction 1 as [|l lines (x & -> & Hlf & Hcr) _ IH]; [done|].
  simpl. rewrite append_assoc, append_cons, append_nil_l.
  by rewrite (readlines_line _ _ Hlf Hcr), IH.
Qed.

Lemma file_of_app (l1 l2 : list string) :
  file_of (l1 ++ l2) = file_of l1 ++ file_of l2.
Proof.
  induction l1 as [|l l1 IH]; [done|]. simpl.
  by rewrite IH, append_assoc.
Qed.

Lemma has_char_append c (a b : string) :
  has_char c (a ++ b) = has_char c a || has_char c b.
Proof.
  induction a as [|d a IH]; [done|]. rewrite append_cons. simpl.
  by rewrite IH, orb_assoc.
Qed.

Lemma has_char_join c sep (cells : list string) :
  has_char c sep = false → Forall (λ x, has_char c x = false) cells →
  has_char c (join sep cells) = false.
Proof.
  intros Hsep. induction 1 as [|x cells Hx Hcells IH]; [done|].
  destruct cells as [|y cells]; [done|].
  change (join sep (x :: y :: cells)) with (x ++ sep ++ join sep (y :: cells)).
  by rewrite !has_char_append, Hx, Hsep, IH.
Qed.

(** ** The frame *)

Lemma width_cons (row : list string) data :
  width (row :: data) = length row `max` width data.
Proof. done. Qed.

Lemma width_ge (data : list (list string)) row :
  row ∈ data → (length row ≤ width data)%nat.
Proof.
  intros Hin. apply max_list_elem_of_le. by apply list_elem_of_fmap_2.
Qed.

Lemma width_attained (data : list (list string)) :
  data ≠ [] → ∃ row, row ∈ data ∧ length row = width data.
Proof.
  intros Hne.
  assert (width data ∈ length <$> data) as (row & Hw & Hin)%list_elem_of_fmap.
  { apply max_list_elem_of. by destruct data. }
  by exists row.
Qed.

Lemma width_all (data : list (list string)) (n : nat) :
  data ≠ [] → Forall (λ row, length row = n) data → width data = n.
Proof.
  intros Hne Hall. destruct (width_attained data Hne) as (row & Hin & <-).
  rewrite Forall_forall in Hall. by apply Hall.
Qed.

Lemma cell_blockCount (row : list (option string)) :
  cell "blockCount" row = mjoin (row !! 17%nat).
Proof. done. Qed.

Lemma astype_int_cells_None `{Py : Interpreter} (frame : list (list (option string))) row :
  row ∈ frame → cell "blockCount" row = None →
  ∃ e, astype_int_cells frame = inl e.
Proof.
  intros Hin Hnone. induction frame as [|row' frame IH].
  { by apply elem_of_nil in Hin. }
  simpl. destruct (cell "blockCount" row') as [s|] eqn:Hcell; [|by eexists].
  destruct (to_int64 s) as [e|z]; [by eexists|].
  apply elem_of_cons in Hin as [-> |Hin]; [congruence|].
  destruct (IH Hin) as [e ->]. by eexists.
Qed.

(** ** Rows that have all their cells *)

Lemma row_of_21_cells (cells : list string) :
  length cells = 21%nat → ∃ r, cells_of_row r = cells.
Proof.
  intros Hlen.
  do 21 (destruct cells as [|? cells]; [discriminate Hlen|]).
  destruct cells; [|discriminate Hlen].
  by eexists (mkRow _ _ _ _ _ _ _ _ _ _ _ _ _ _ _ _ _ _ _ _ _).
Qed.

Lemma rows_of_21_cells (data : list (list string)) :
  Forall (λ cells, length cells = 21%nat) data →
  ∃ df, cells_of_row <$> df = data.
Proof.
  induction 1 as [|cells data [r <-]%row_of_21_cells _ [df <-]].
  - by exists [].
  - by exists (r :: df).
Qed.

Lemma DataFrame_of_rows (df : list (Row string)) :
  DataFrame (cells_of_row <$> df) psl_columns =
  inr ((λ r, Some <$> cells_of_row r) <$> df).
Proof.
  destruct df as [|r df]; [done|]. unfold DataFrame. rewrite fmap_cons.
  assert (width (cells_of_row r :: (cells_of_row <$> df)) = 21%nat) as Hw.
  { apply width_all; [done|]. rewrite <- fmap_cons.
    apply Forall_fmap, Forall_forall. by intros. }
  rewrite decide_True by exact Hw. f_equal. unfold to_object_array.
  rewrite Hw, <- fmap_cons, <- list_fmap_compose.
  apply list_fmap_ext. intros _ r' _. simpl. done.
Qed.

Lemma astype_int_cells_of_rows `{Py : Interpreter} (df : list (Row string)) :
  astype_int_cells ((λ r, Some <$> cells_of_row r) <$> df) =
  match astype_int df with
  | inl e => inl (CellError e)
  | inr d => inr d
  end.
Proof.
  induction df as [|r df IH]; [done|]. rewrite fmap_cons.
  change (astype_int_cells ((Some <$> cells_of_row r) :: ?f))
    with (match to_int64 (blockCount r) with
          | inl e => inl (CellError e)
          | inr z =>
              match astype_int_cells f with
              | inl e => inl e
              | inr d => inr (with_blockCount r z :: d)
              end
          end).
  rewrite IH. simpl. destruct (to_int64 (blockCount r)); [done|].
  by destruct (astype_int df).
Qed.

Lemma process_psl_file_stages `{Py : Interpreter} `{HashOrder}
    (df0 : list (Row string)) fs :
  process_psl_file df0 fs =
  match astype_int df0 with
  | inl e => (inl e, fs)
  | inr df => write_reports df fs
  end.
Proof.
  unfold process_psl_file, write_reports, mbind, io_bind, raise_or_ret.
  by destruct (astype_int df0).
Qed.

Lemma write_reports_returns `{HashOrder} (df : list (Row Z)) fs :
  ∃ fs', write_reports df fs = (inr (), fs').
Proof. by eexists. Qed.

(** The run on a text whose lines are the cells of the rows of [df]. *)
Lemma process_psl_text_rows `{Py : Interpreter} `{HashOrder}
    (text : string) (df : list (Row string)) fs :
  cells_of_line <$> drop 5 (readlines text) = cells_of_row <$> df →
  process_psl_text text fs = lift_outcome (process_psl_file df fs).
Proof.
  intros Hrows. unfold process_psl_text. rewrite Hrows, DataFrame_of_rows.
  rewrite astype_int_cells_of_rows, process_psl_file_stages.
  by destruct (astype_int df).
Qed.

Lemma first_char_join sep x (cells : list string) c :
  first_char x = Some c → first_char (join sep (x :: cells)) = Some c.
Proof.
  destruct x as [|d x]; [done|]. intros [= ->].
  destruct cells as [|y cells]; [done|].
  change (join sep (String c x :: y :: cells))
    with (String c x ++ sep ++ join sep (y :: cells)).
  by rewrite append_cons.
Qed.

Lemma last_char_append (a b : string) c :
  last_char b = Some c → last_char (a ++ b) = Some c.
Proof.
  destruct b as [|d b]; [done|]. intros Hb.
  by rewrite last_char_append_cons.
Qed.

Lemma last_char_join sep (cells : list string) y c :
  last cells = Some y → last_char y = Some c →
  last_char (join sep cells) = Some c.
Proof.
  intros Hy Hc. induction cells as [|x cells IH]; [done|].
  destruct cells as [|x' cells].
  - by injection Hy as ->.
  - change (join sep (x :: x' :: cells))
      with (x ++ sep ++ join sep (x' :: cells)).
    apply last_char_append, last_char_append, IH. exact Hy.
Qed.

(** * Reading the PSL file: what the code shows *)

(** X1. A file of five lines or fewer has no record: the run does not raise
    and writes the five files with their headers and no row. Whatever the
    first five lines hold, a record among them too, is not read. *)
Theorem header_only_file_gives_empty_reports `{Py : Interpreter} `{HashOrder}
    (text : string) (fs : Files) :
  (length (readlines text) ≤ 5)%nat →
  process_psl_text text fs = (inr (), (fs ++ empty_reports)%list).
Proof.
  intros Hlen. unfold process_psl_text. rewrite drop_ge by exact Hlen.
  simpl. unfold write_reports, mbind, io_bind, to_csv. simpl.
  by rewrite <- !(assoc_L (++)).
Qed.

Lemma header_only_file_gives_empty_reports_witness :
  (length (readlines (file_of ((λ h, h ++ String LF "") <$> psl_header)))
   ≤ 5)%nat ∧
  process_psl_text (Py := cpython) (H := run_forward)
    (file_of ((λ h, h ++ String LF "") <$> psl_header)) [] =
  (inr (), ([] ++ empty_reports)%list).
Proof.
  assert (length (readlines
            (file_of ((λ h, h ++ String LF "") <$> psl_header))) ≤ 5)%nat
    as Hlen.
  { vm_compute. repeat constructor. }
  split; [exact Hlen|].
  exact (header_only_file_gives_empty_reports (Py := cpython) (H := run_forward) _ [] Hlen).
Defined.

(** X2. When every line after the fifth has exactly 21 cells between its
    tabs, the run on the text is the run on the frame whose rows have those
    cells, column by column: it raises what that run raises and writes what
    it writes. *)
Theorem full_lines_run_as_frame `{Py : Interpreter} `{HashOrder} (text : string) (fs : Files) :
  Forall (λ line, length (cells_of_line line) = 21%nat)
    (drop 5 (readlines text)) →
  ∃ df : list (Row string),
    cells_of_row <$> df = cells_of_line <$> drop 5 (readlines text) ∧
    process_psl_text text fs = lift_outcome (process_psl_file df fs).
Proof.
  intros Hall.
  destruct (rows_of_21_cells (cells_of_line <$> drop 5 (readlines text)))
    as [df Hdf].
  { by apply Forall_fmap. }
  exists df. split; [done|]. by apply process_psl_text_rows.
Qed.

Lemma full_lines_run_as_frame_witness :
  Forall (λ line, length (cells_of_line line) = 21%nat)
    (drop 5 (readlines psl_text)) ∧
  ∃ df : list (Row string),
    cells_of_row <$> df = cells_of_line <$> drop 5 (readlines psl_text) ∧
    process_psl_text (Py := cpython) (H := run_forward) psl_text [] =
    lift_outcome (process_psl_file (Py := cpython) (H := run_forward) df []).
Proof.
  assert (Forall (λ line, length (cells_of_line line) = 21%nat)
            (drop 5 (readlines psl_text))) as Hall.
  { vm_compute. repeat constructor. }
  split; [exact Hall|].
  exact (full_lines_run_as_frame (Py := cpython) (H := run_forward) psl_text [] Hall).
Defined.

(** X3. When a line after the fifth has more than 21 cells, or when there
    are such lines and all of them have fewer than 21, the frame cannot be
    built: the run raises the error of the constructor, which names the 21
    columns passed and the number of cells of the longest line, and no file
    is written. *)
Theorem wrong_cell_count_raises `{Py : Interpreter} `{HashOrder}
    (text : string) (fs : Files) :
  Exists (λ line, (21 < length (cells_of_line line))%nat)
    (drop 5 (readlines text)) ∨
  (drop 5 (readlines text) ≠ [] ∧
   Forall (λ line, (length (cells_of_line line) < 21)%nat)
     (drop 5 (readlines text))) →
  width (cells_of_line <$> drop 5 (readlines text)) ≠ 21%nat ∧
  process_psl_text text fs =
  (inl (ColumnsError 21
          (width (cells_of_line <$> drop 5 (readlines text)))), fs).
Proof.
  intros Hbad. unfold process_psl_text.
  set (data := cells_of_line <$> drop 5 (readlines text)).
  assert (data ≠ [] ∧ width data ≠ 21%nat) as [Hne Hw].
  { destruct Hbad as [(line & Hin & Hlong)%Exists_exists | [Hne Hshort]].
    - assert (cells_of_line line ∈ data) as Hrow
        by (by apply list_elem_of_fmap_2).
      split; [by intros Hnil; rewrite Hnil in Hrow; apply elem_of_nil in Hrow|].
      apply width_ge in Hrow. lia.
    - assert (data ≠ []) as Hne'
        by (unfold data; by destruct (drop 5 (readlines text))).
      split; [done|].
      destruct (width_attained data Hne') as (row & Hin & <-).
      apply list_elem_of_fmap in Hin as (line & -> & Hin).
      rewrite Forall_forall in Hshort. specialize (Hshort line Hin). lia. }
  split; [done|].
  unfold DataFrame. destruct data as [|row data']; [done|].
  by rewrite decide_False.
Qed.

Lemma wrong_cell_count_raises_witness :
  (Exists (λ line, (21 < length (cells_of_line line))%nat)
     (drop 5 (readlines psl_text_one_cell)) ∨
   (drop 5 (readlines psl_text_one_cell) ≠ [] ∧
    Forall (λ line, (length (cells_of_line line) < 21)%nat)
      (drop 5 (readlines psl_text_one_cell)))) ∧
  width (cells_of_line <$> drop 5 (readlines psl_text_one_cell)) ≠ 21%nat ∧
  process_psl_text (Py := cpython) (H := run_forward) psl_text_one_cell [] =
  (inl (ColumnsError 21
          (width (cells_of_line <$> drop 5 (readlines psl_text_one_cell)))),
   []).
Proof.
  assert (drop 5 (readlines psl_text_one_cell) = ["a line"]) as Hlines
    by (by vm_compute).
  assert (Exists (λ line, (21 < length (cells_of_line line))%nat)
            (drop 5 (readlines psl_text_one_cell)) ∨
          (drop 5 (readlines psl_text_one_cell) ≠ [] ∧
           Forall (λ line, (length (cells_of_line line) < 21)%nat)
             (drop 5 (readlines psl_text_one_cell)))) as Hbad.
  { right. rewrite Hlines. split; [done|].
    apply Forall_singleton. vm_compute. lia. }
  split; [exact Hbad|].
  exact (wrong_cell_count_raises (Py := cpython) (H := run_forward)
           psl_text_one_cell [] Hbad).
Defined.

(** The frame, when it is built: the cells of each line, then [None] up to
    the number of columns. *)
Lemma DataFrame_rows (data : list (list string)) (columns : list string)
    frame :
  DataFrame data columns = inr frame →
  frame =
  (λ row : list string,
     ((Some <$> row) ++ replicate (length columns - length row) None)%list)
  <$> data.
Proof.
  unfold DataFrame. destruct data as [|row data]; [by intros [= <-]|].
  destruct (decide (width (row :: data) = length columns)) as [Hw|];
    [|done].
  intros [= <-]. unfold to_object_array. by rewrite Hw.
Qed.

(** X4. A line after the fifth with fewer than 18 cells, an empty line for
    one, has no [blockCount]: the run raises, at the constructor or at the
    conversion, and no file is written, whatever the other lines are. *)
Theorem short_line_raises `{Py : Interpreter} `{HashOrder} (text : string) (fs : Files) :
  Exists (λ line, (length (cells_of_line line) < 18)%nat)
    (drop 5 (readlines text)) →
  ∃ e, process_psl_text text fs = (inl e, fs).
Proof.
  intros (line & Hin & Hshort)%Exists_exists. unfold process_psl_text.
  destruct (DataFrame (cells_of_line <$> drop 5 (readlines text)) psl_columns)
    as [e|frame] eqn:Hframe; [by eexists|].
  apply DataFrame_rows in Hframe.
  destruct (astype_int_cells_None frame
              ((Some <$> cells_of_line line) ++
               replicate (length psl_columns - length (cells_of_line line))
                 None)%list)
    as [e' ->]; [| |by eexists].
  - rewrite Hframe, <- list_fmap_compose.
    by apply (list_elem_of_fmap_2
                (λ l, ((Some <$> cells_of_line l) ++
                       replicate (length psl_columns -
                                  length (cells_of_line l)) None)%list)).
  - rewrite cell_blockCount, lookup_app_r by (rewrite length_fmap; lia).
    rewrite length_fmap, lookup_replicate_2; [done|].
    change (length psl_columns) with 21%nat. lia.
Qed.

Lemma short_line_raises_witness :
  Exists (λ line, (length (cells_of_line line) < 18)%nat)
    (drop 5 (readlines psl_text_blank_line)) ∧
  ∃ e, process_psl_text (Py := cpython) (H := run_forward) psl_text_blank_line [] =
       (inl e, []).
Proof.
  assert (Exists (λ line, (length (cells_of_line line) < 18)%nat)
            (drop 5 (readlines psl_text_blank_line))) as Hshort.
  { apply Exists_exists. exists (String LF ""). split.
    - vm_compute. do 2 right. by left.
    - vm_compute. lia. }
  split; [exact Hshort|].
  exact (short_line_raises (Py := cpython) (H := run_forward) psl_text_blank_line [] Hshort).
Defined.

(** X5. [strip] takes the tabs at the two ends of a line with the other
    white space, so the cells of a line never start or end with an empty
    cell: either the line is blank and has the one empty cell, or its first
    cell starts and its last cell ends with a character that is not white
    space. An empty first or last column moves the other cells. *)
Theorem outer_cells_never_blank (line : string) :
  cells_of_line line = [""] ∨
  (∃ c x, head (cells_of_line line) = Some (String c x) ∧
          is_space c = false) ∧
  (∃ y c, last (cells_of_line line) = Some y ∧ last_char y = Some c ∧
          is_space c = false).
Proof.
  unfold cells_of_line.
  destruct (strip_ends line) as [-> |[(c & Hc & Hcs) (d & Hd & Hds)]];
    [by left|].
  right. split.
  - destruct (strip line) as [|c' s]; [done|]. injection Hc as ->.
    destruct (split_cons TAB c s (tab_is_space c Hcs)) as (x & cells & _ & ->).
    by exists c, x.
  - destruct (split_last TAB (strip line) d Hd (tab_is_space d Hds))
      as (y & Hy & Hyd).
    by exists y, d.
Qed.

Lemma cells_of_joined_line (cells : list string) :
  Forall (λ x, has_char TAB x = false) cells →
  not_space (first_char (default "" (head cells))) = true →
  not_space (last_char (default "" (last cells))) = true →
  cells_of_line (line_of_cells cells) = cells.
Proof.
  intros Htab Hfirst Hlast.
  destruct cells as [|x cells]; [done|]. simpl in Hfirst.
  destruct (last (x :: cells)) as [y|] eqn:Hy; [|done]. simpl in Hlast.
  unfold cells_of_line, line_of_cells.
  rewrite strip_line.
  - by apply split_join.
  - destruct (not_space_Some _ Hfirst) as (c & Hc & _).
    rewrite (first_char_join _ _ _ c Hc), <- Hc. exact Hfirst.
  - destruct (not_space_Some _ Hlast) as (d & Hd & _).
    rewrite (last_char_join _ _ y d Hy Hd), <- Hd. exact Hlast.
Qed.

(** X6. The cells of a line come back from the line: for one cell or more
    with no tab in them, the first starting and the last ending with a
    character of the ASCII range that is not white space, the cells of their
    line joined by tabs are the cells. *)
Theorem cells_of_line_of_cells (cells : list string) :
  Forall (λ x, has_char TAB x = false) cells →
  not_space (first_char (default "" (head cells))) = true →
  not_space (last_char (default "" (last cells))) = true →
  cells_of_line (line_of_cells cells) = cells.
Proof. apply cells_of_joined_line. Qed.

Lemma cells_of_line_of_cells_witness :
  Forall (λ x, has_char TAB x = false) ["12"; ""; "+"; "p 1"] ∧
  not_space (first_char (default "" (head ["12"; ""; "+"; "p 1"]))) = true ∧
  not_space (last_char (default "" (last ["12"; ""; "+"; "p 1"]))) = true ∧
  cells_of_line (line_of_cells ["12"; ""; "+"; "p 1"]) =
  ["12"; ""; "+"; "p 1"].
Proof.
  assert (Forall (λ x, has_char TAB x = false) ["12"; ""; "+"; "p 1"])
    as Htab by (repeat constructor).
  split; [exact Htab|]. split; [reflexivity|]. split; [reflexivity|].
  exact (cells_of_line_of_cells ["12"; ""; "+"; "p 1"] Htab eq_refl eq_refl).
Defined.

Lemma writable_cell_spec (x : string) :
  writable_cell x = true →
  has_char TAB x = false ∧ has_char LF x = false ∧ has_char CR x = false.
Proof.
  unfold writable_cell.
  intros [[Ht Hl]%andb_true_iff Hc]%andb_true_iff.
  by rewrite !negb_true_iff in *.
Qed.

Lemma writable_row_line (r : Row string) :
  writable_row r = true →
  cells_of_line (line_of_cells (cells_of_row r)) = cells_of_row r ∧
  ∃ x, line_of_cells (cells_of_row r) = x ++ String LF "" ∧
       has_char LF x = false ∧ has_char CR x = false.
Proof.
  unfold writable_row.
  intros [[Hcells Hfirst]%andb_true_iff Hlast]%andb_true_iff.
  apply Is_true_true_2, forallb_True in Hcells.
  assert (Forall (λ x, has_char TAB x = false ∧ has_char LF x = false ∧
                       has_char CR x = false) (cells_of_row r)) as Hall.
  { eapply Forall_impl; [exact Hcells|]. intros x Hx.
    apply writable_cell_spec. by apply Is_true_true. }
  split.
  - apply cells_of_joined_line; [|done..].
    eapply Forall_impl; [exact Hall|]. by intros x (? & _).
  - exists (join (String TAB "") (cells_of_row r)). split; [done|]. split.
    + apply has_char_join; [done|].
      eapply Forall_impl; [exact Hall|]. by intros x (_ & ? & _).
    + apply has_char_join; [done|].
      eapply Forall_impl; [exact Hall|]. by intros x (_ & _ & ?).
Qed.

(** X7. A file written from a frame is read back as that frame: after any
    five header lines, one line per row with the cells of the row joined by
    tabs, the run on the text of the file is the run on the frame, when the
    cells have no tab and no end of line in them and the first and the last
    cell of each row are not empty and have no white space outside. *)
Theorem written_file_runs_as_frame `{Py : Interpreter} `{HashOrder} (header : list string)
    (df : list (Row string)) (fs : Files) :
  length header = 5%nat →
  Forall (λ h, has_char LF h = false ∧ has_char CR h = false) header →
  Forall (λ r, writable_row r = true) df →
  process_psl_text
    (file_of (((λ h, h ++ String LF "") <$> header) ++
              (line_of_cells ∘ cells_of_row <$> df))) fs =
  lift_outcome (process_psl_file df fs).
Proof.
  intros Hlen Hheader Hrows. apply process_psl_text_rows.
  rewrite readlines_file_of.
  - rewrite drop_app_length' by (by rewrite length_fmap).
    rewrite <- list_fmap_compose. apply list_fmap_ext.
    intros _ r Hr%list_elem_of_lookup_2. simpl.
    rewrite Forall_forall in Hrows.
    by apply writable_row_line, Hrows.
  - apply Forall_app. split.
    + apply Forall_fmap. eapply Forall_impl; [exact Hheader|].
      intros h [Hlf Hcr]. by exists h.
    + apply Forall_fmap. eapply Forall_impl; [exact Hrows|].
      intros r Hr. simpl. by apply writable_row_line.
Qed.

Lemma written_file_runs_as_frame_witness :
  length psl_header = 5%nat ∧
  Forall (λ h, has_char LF h = false ∧ has_char CR h = false) psl_header ∧
  Forall (λ r, writable_row r = true) example4 ∧
  process_psl_text (Py := cpython) (H := run_forward)
    (file_of (((λ h, h ++ String LF "") <$> psl_header) ++
              (line_of_cells ∘ cells_of_row <$> example4))) [] =
  lift_outcome (process_psl_file (Py := cpython) (H := run_forward) example4 []).
Proof.
  assert (Forall (λ h, has_char LF h = false ∧ has_char CR h = false)
            psl_header) as Hheader by (repeat constructor).
  assert (Forall (λ r, writable_row r = true) example4) as Hrows
    by (repeat constructor).
  split; [reflexivity|]. split; [exact Hheader|]. split; [exact Hrows|].
  exact (written_file_runs_as_frame (Py := cpython) (H := run_forward) psl_header example4 []
           eq_refl Hheader Hrows).
Defined.

(** * gff_visualizer.py: lemmas *)

(** ** Dictionaries *)

Lemma py_dict_snoc (items : list (string * option string)) k v :
  py_dict (items ++ [(k, v)]) = <[k := v]> (py_dict items).
Proof. unfold py_dict. by rewrite foldl_app. Qed.

Lemma py_dict_lookup (items : list (string * option string)) k v :
  NoDup items.*1 → (k, v) ∈ items → py_dict items !! k = Some v.
Proof.
  induction items as [|[k' v'] items IH] using rev_ind.
  { by intros _ ?%elem_of_nil. }
  rewrite fmap_app, py_dict_snoc. intros [Hnd [Hfresh _]]%NoDup_app.
  intros [Hin|[= -> ->]%list_elem_of_singleton]%elem_of_app.
  - rewrite lookup_insert_ne; [by apply IH|]. intros ->.
    apply (Hfresh k); [|by apply list_elem_of_singleton].
    by apply (list_elem_of_fmap_2 fst _ (k, v)).
  - by rewrite lookup_insert_eq.
Qed.

Lemma py_dict_lookup_None (items : list (string * option string)) k :
  k ∉ items.*1 → py_dict items !! k = None.
Proof.
  induction items as [|[k' v'] items IH] using rev_ind; [done|].
  rewrite fmap_app, py_dict_snoc. intros Hnot.
  rewrite lookup_insert_ne.
  - apply IH. intros Hin. apply Hnot, elem_of_app. by left.
  - intros ->. apply Hnot, elem_of_app. right. by apply list_elem_of_singleton.
Qed.

(** The cells of a row as [DictReader] hands them out, when no field name
    comes twice: the cell at the place of the name, [None] when the row
    stops before it. *)
Lemma padded_lookup (row : list string) (n i : nat) :
  (i < n)%nat →
  ((Some <$> row) ++ replicate (n - length row) None)%list !! i
  = Some (row !! i).
Proof.
  intros Hi. destruct (decide (i < length row)%nat) as [Hlt|Hge].
  - rewrite lookup_app_l by (by rewrite length_fmap).
    rewrite list_lookup_fmap.
    destruct (lookup_lt_is_Some_2 row i Hlt) as [x ->]. done.
  - rewrite lookup_app_r by (rewrite length_fmap; lia).
    rewrite length_fmap, lookup_replicate_2 by lia.
    by rewrite (lookup_ge_None_2 row i) by lia.
Qed.

Lemma dict_row_lookup (fieldnames row : list string) (i : nat) k :
  NoDup fieldnames → fieldnames !! i = Some k →
  dict_row fieldnames row !! k = Some (row !! i).
Proof.
  intros Hnd Hk. unfold dict_row. apply py_dict_lookup.
  - rewrite fst_zip; [done|]. rewrite length_app, length_fmap, length_replicate.
    lia.
  - apply list_elem_of_lookup. exists i. apply lookup_zip_Some. split; [done|].
    apply padded_lookup. by apply lookup_lt_Some in Hk.
Qed.

Lemma dict_row_lookup_None (fieldnames row : list string) k :
  k ∉ fieldnames → dict_row fieldnames row !! k = None.
Proof.
  intros Hk. unfold dict_row. apply py_dict_lookup_None.
  rewrite fst_zip; [done|]. rewrite length_app, length_fmap, length_replicate.
  lia.
Qed.

(** ** The first hyphen *)

Lemma split_once_spec sep (a b : string) :
  has_char sep a = false →
  split_once sep (a ++ String sep b) = Some (a, b).
Proof.
  induction a as [|c a IH].
  - intros _. rewrite append_nil_l. simpl. by rewrite Ascii.eqb_refl.
  - change (has_char sep (String c a))
      with (Ascii.eqb c sep || has_char sep a).
    intros [Hc Ha]%orb_false_elim.
    change (String c a ++ String sep b) with (String c (a ++ String sep b)).
    simpl. by rewrite Hc, (IH Ha).
Qed.

Lemma truthy_append_cons (a : string) c (b : string) :
  truthy (Some (a ++ String c b)) = true.
Proof. by destruct a. Qed.

(** ** The loop of [tsv_to_gff] *)

Section GffLoop.
Context `{Py : Interpreter}.

Lemma gff_body_app_raised rows row after :
  (gff_body rows).2 = false →
  gff_step row = Raised →
  gff_body (rows ++ row :: after) = ((gff_body rows).1, true).
Proof.
  intros Hok Hraise. induction rows as [|r rows IH].
  - simpl. by rewrite Hraise.
  - simpl in *. destruct (gff_step r) as [|line|].
    + by apply IH.
    + simpl in *. by rewrite (IH Hok).
    + done.
Qed.

(** ** The loop of [visualize_gff] *)

Lemma features_of_lines_raised lines :
  Exists (λ line, feature_step line = Raised) lines →
  features_of_lines lines = None.
Proof.
  induction 1 as [line lines Hraise|line lines _ IH]; simpl.
  - by rewrite Hraise.
  - rewrite IH. by destruct (feature_step line).
Qed.

Lemma feature_step_long line :
  startswith line "#" = false →
  (9 < length (cells_of_line line))%nat →
  feature_step line = Raised.
Proof.
  intros Hhash Hlong. unfold feature_step. rewrite Hhash.
  destruct (cells_of_line line) as [|c1 parts]; [simpl in Hlong; lia|].
  do 9 (destruct parts as [|? parts]; [simpl in Hlong; lia|]).
  done.
Qed.
End GffLoop.

(** ** The characters of a literal *)

Lemma has_char_cons c a (s : string) :
  has_char c (String a s) = Ascii.eqb a c || has_char c s.
Proof. done. Qed.

Lemma has_char_skip_spaces c (s : string) :
  Py_ISSPACE c = false → has_char c (skip_spaces s) = has_char c s.
Proof.
  intros Hc. induction s as [|d s IH]; [done|]. simpl.
  destruct (Py_ISSPACE d) eqn:Hd; [|done]. rewrite IH.
  destruct (Ascii.eqb_spec d c) as [-> |]; [congruence|done].
Qed.

Lemma has_char_rev c (s : string) :
  has_char c (String.rev s) = has_char c s.
Proof.
  induction s as [|d s IH]; [done|].
  rewrite rev_cons, has_char_append, IH. simpl.
  by rewrite orb_false_r, orb_comm.
Qed.

Lemma int_digits_chars acc after (d : string) z c :
  int_digits acc after d = Some z →
  is_digit c = false → Ascii.eqb c "_" = false → has_char c d = false.
Proof.
  intros Hd Hc Hu. revert acc after Hd.
  induction d as [|x d IH]; intros acc after Hd; [done|]. simpl in *.
  destruct (Ascii.eqb_spec x c) as [-> |_].
  - by rewrite Hc, Hu in Hd.
  - simpl. destruct (is_digit x); [by eapply IH|].
    destruct (Ascii.eqb x "_"); [|done].
    destruct after; [by eapply IH|done].
Qed.

Lemma cont_not_ascii b c :
  is_cont b = true → (ord c < 0x80)%N → Ascii.eqb b c = false.
Proof.
  intros Hb%is_cont_ord Hc.
  destruct (Ascii.eqb_spec b c) as [-> |]; [lia|done].
Qed.

Section Literal.
Context `{Py : Interpreter}.

(** [transform], case by case. *)
Lemma transform_ascii a (s1 : string) :
  (ord a <? 0x80)%N = true →
  transform (String a s1) = String a (transform s1).
Proof. intros Ha. cbn [transform]. by rewrite Ha. Qed.

Lemma transform_2 a b (s2 : string) ch :
  (ord a <? 0x80)%N = false → code2 a b = Some ch →
  transform (String a (String b s2)) = put ch (transform s2).
Proof. intros Ha H2. cbn [transform]. by rewrite Ha, H2. Qed.

Lemma transform_3 a b c (s3 : string) ch :
  (ord a <? 0x80)%N = false → code2 a b = None → code3 a b c = Some ch →
  transform (String a (String b (String c s3))) = put ch (transform s3).
Proof. intros Ha H2 H3. cbn [transform]. by rewrite Ha, H2, H3. Qed.

Lemma transform_4 a b c d (s4 : string) ch :
  (ord a <? 0x80)%N = false → code2 a b = None → code3 a b c = None →
  code4 a b c d = Some ch →
  transform (String a (String b (String c (String d s4)))) =
  put ch (transform s4).
Proof. intros Ha H2 H3 H4. cbn [transform]. by rewrite Ha, H2, H3, H4. Qed.

(** Where the bytes at the head are no character, the text stops. *)
Lemma transform_stop a (s1 : string) :
  (ord a <? 0x80)%N = false →
  match s1 with
  | String b s2 =>
      code2 a b = None ∧
      match s2 with
      | String c s3 =>
          code3 a b c = None ∧
          match s3 with
          | String d _ => code4 a b c d = None
          | EmptyString => True
          end
      | EmptyString => True
      end
  | EmptyString => True
  end →
  transform (String a s1) = "?".
Proof.
  intros Ha Hbad. cbn [transform]. rewrite Ha.
  destruct s1 as [|b s2]; [done|]. destruct Hbad as [-> Hbad].
  destruct s2 as [|c s3]; [done|]. destruct Hbad as [-> Hbad].
  destruct s3 as [|d s4]; [done|]. by rewrite Hbad.
Qed.

Lemma has_char_put c ch (t : string) :
  has_char c t = true ∨ has_char "?" t = true →
  has_char c (put ch t) = true ∨ has_char "?" (put ch t) = true.
Proof.
  unfold put. destruct (to_ascii ch) as [x|]; [|by right].
  rewrite !has_char_cons. intros [-> | ->]; [left|right]; apply orb_true_r.
Qed.

(** A character of the ASCII range that is in a text is in the ASCII text
    that [int] reads, unless that text stops at a question mark. *)
Lemma transform_keeps_n c (n : nat) (s : string) :
  (ord c < 0x80)%N → (String.length s ≤ n)%nat → has_char c s = true →
  has_char c (transform s) = true ∨ has_char "?" (transform s) = true.
Proof.
  intros Hc. revert s. induction n as [|n IH]; intros s Hlen Hs.
  { destruct s; [done|simpl in Hlen; lia]. }
  destruct s as [|a s1]; [done|]. simpl in Hlen.
  rewrite has_char_cons in Hs.
  destruct (ord a <? 0x80)%N eqn:Ha.
  { rewrite (transform_ascii a s1 Ha), !has_char_cons.
    destruct (Ascii.eqb a c); [by left|]. simpl in Hs.
    destruct (IH s1) as [-> | ->]; [lia|done|left|right]; apply orb_true_r. }
  assert (Ascii.eqb a c = false) as Hac.
  { apply N.ltb_ge in Ha. destruct (Ascii.eqb_spec a c) as [-> |]; [lia|done]. }
  rewrite Hac in Hs. simpl in Hs.
  destruct s1 as [|b s2]; [done|]. simpl in Hlen.
  destruct (code2 a b) as [ch|] eqn:H2.
  { rewrite (transform_2 a b s2 ch Ha H2).
    apply code2_Some in H2 as [_ Hb].
    rewrite has_char_cons, (cont_not_ascii b c Hb Hc) in Hs.
    apply has_char_put, IH; [lia|done]. }
  destruct s2 as [|c3 s3]; [right; by rewrite transform_stop|].
  simpl in Hlen. destruct (code3 a b c3) as [ch|] eqn:H3.
  { rewrite (transform_3 a b c3 s3 ch Ha H2 H3).
    apply code3_Some in H3 as (_ & Hb & Hc3).
    rewrite !has_char_cons, (cont_not_ascii b c Hb Hc),
      (cont_not_ascii c3 c Hc3 Hc) in Hs.
    apply has_char_put, IH; [lia|done]. }
  destruct s3 as [|d s4]; [right; by rewrite transform_stop|].
  simpl in Hlen. destruct (code4 a b c3 d) as [ch|] eqn:H4.
  { rewrite (transform_4 a b c3 d s4 ch Ha H2 H3 H4).
    apply code4_Some in H4 as (_ & Hb & Hc3 & Hd).
    rewrite !has_char_cons, (cont_not_ascii b c Hb Hc),
      (cont_not_ascii c3 c Hc3 Hc), (cont_not_ascii d c Hd Hc) in Hs.
    apply has_char_put, IH; [lia|done]. }
  right. by rewrite transform_stop.
Qed.

(** The ASCII text of a literal that [int] takes has only white space, a
    sign, digits and underscores. *)
Lemma literal_chars (s : string) z x :
  py_int s = Some z →
  Py_ISSPACE x = false → is_digit x = false → Ascii.eqb x "_" = false →
  Ascii.eqb x "+" = false → Ascii.eqb x "-" = false →
  has_char x (transform s) = false.
Proof.
  unfold py_int. destruct (too_long _); [done|].
  intros Hint Hsp Hdig Hu Hplus Hminus.
  rewrite <- (has_char_skip_spaces x (transform s) Hsp).
  rewrite <- (has_char_rev x (skip_spaces (transform s))).
  rewrite <- (has_char_skip_spaces x (String.rev _) Hsp).
  rewrite <- (has_char_rev x (skip_spaces (String.rev _))).
  destruct (String.rev (skip_spaces (String.rev (skip_spaces (transform s)))))
    as [|a d]; [done|].
  assert ((∃ z', int_digits 0 false d = Some z' ∧
                 (Ascii.eqb a "+" = true ∨ Ascii.eqb a "-" = true)) ∨
          int_digits 0 false (String a d) = Some z) as Hcases.
  { destruct a as [[] [] [] [] [] [] [] []];
      try (right; exact Hint).
    - left. exists z. by split; [|left].
    - left. destruct (int_digits 0 false d) as [z'|]; [|done].
      exists z'. by split; [|right]. }
  destruct Hcases as [(z' & Hd & Hsign)|Hd].
  - rewrite has_char_cons, (int_digits_chars _ _ _ _ x Hd Hdig Hu),
      orb_false_r.
    destruct (Ascii.eqb_spec a x) as [-> |]; [|done].
    destruct Hsign; congruence.
  - by apply (int_digits_chars _ _ _ _ x Hd).
Qed.

(** A character of the ASCII range that is no digit, sign, underscore or
    white space is not in a literal that [int] takes. *)
Lemma py_int_chars (s : string) z c :
  py_int s = Some z → (ord c < 0x80)%N →
  Py_ISSPACE c = false → is_digit c = false → Ascii.eqb c "_" = false →
  Ascii.eqb c "+" = false → Ascii.eqb c "-" = false →
  has_char c s = false.
Proof.
  intros Hint Hc Hsp Hdig Hu Hplus Hminus.
  destruct (has_char c s) eqn:Hs; [|done].
  destruct (transform_keeps_n c (String.length s) s Hc) as [Hin|Hin];
    [done|done| |].
  - by rewrite (literal_chars s z c) in Hin.
  - by rewrite (literal_chars s z "?" Hint) in Hin.
Qed.
End Literal.

Lemma startswith_append (c rest : string) x :
  first_char c = Some x →
  startswith (c ++ rest) (String "#" "") = startswith c (String "#" "").
Proof. destruct c as [|y c]; [done|]. intros _. reflexivity. Qed.

(** The colour that [visualize_gff] finds in the attributes that
    [tsv_to_gff] writes. *)
Lemma color_of_written (s : string) (blue : bool) :
  has_char ";" s = false →
  color_of ("ID=region_" ++ s ++
            (if blue then ";Name=region;color=0,0,255" else ";Name=region"))
  = if blue then "0,0,255" else "black".
Proof.
  intros Hs. unfold color_of.
  assert (has_char ";" ("ID=region_" ++ s) = false) as Hid
    by (by rewrite has_char_append, Hs).
  destruct blue.
  - change ("ID=region_" ++ s ++ ";Name=region;color=0,0,255")
      with ("ID=region_" ++ s ++ String ";" "Name=region;color=0,0,255").
    rewrite <- append_assoc, (split_cell_sep _ _ _ Hid). done.
  - change ("ID=region_" ++ s ++ ";Name=region")
      with ("ID=region_" ++ s ++ String ";" "Name=region").
    rewrite <- append_assoc, (split_cell_sep _ _ _ Hid). done.
Qed.

(** * gff_visualizer.py: what the code shows *)

(** X8. A row that stops before the column [bases_1X] of the header, and
    whose region is found, ends the conversion with the [TypeError] of
    [int(None)]: the GFF file is left with the header line and the lines of
    the rows before that row, and no row after it is written. *)
Theorem missing_coverage_cell_raises `{Py : Interpreter}
    (fieldnames : list string) (before : list (list string))
    (row : list string) (after : list (list string)) (i : nat) :
  NoDup fieldnames → fieldnames !! i = Some "bases_1X" →
  row ≠ [] → (length row ≤ i)%nat →
  region_of (dict_row fieldnames row) ≠ None →
  (tsv_to_gff (fieldnames :: before)).2 = false →
  tsv_to_gff (fieldnames :: before ++ row :: after) =
  ((tsv_to_gff (fieldnames :: before)).1, true).
Proof.
  intros Hnd Hi Hrow Hlen Hregion Hok. unfold tsv_to_gff in *. simpl in *.
  rewrite filter_app, filter_cons_True, fmap_app, fmap_cons by done.
  rewrite gff_body_app_raised; [done|done|].
  unfold gff_step.
  destruct (region_of (dict_row fieldnames row)) as [[start end_]|]; [|done].
  unfold get. rewrite (dict_row_lookup _ _ i "bases_1X" Hnd Hi).
  by rewrite lookup_ge_None_2.
Qed.

Lemma missing_coverage_cell_raises_witness :
  NoDup ["chrom"; "target"; "bases_1X"] ∧
  ["chrom"; "target"; "bases_1X"] !! 2%nat = Some "bases_1X" ∧
  ["chr2"; "30-40"] ≠ [] ∧ (length ["chr2"; "30-40"] ≤ 2)%nat ∧
  region_of (dict_row ["chrom"; "target"; "bases_1X"] ["chr2"; "30-40"])
    ≠ None ∧
  (tsv_to_gff (Py := cpython) [["chrom"; "target"; "bases_1X"];
                               ["chr1"; "10-20"; "5"]]).2 = false ∧
  tsv_to_gff (Py := cpython) tsv_records_short_row =
  ((tsv_to_gff (Py := cpython) [["chrom"; "target"; "bases_1X"];
                                ["chr1"; "10-20"; "5"]]).1, true).
Proof.
  assert (NoDup ["chrom"; "target"; "bases_1X"]) as Hnd.
  { apply (bool_decide_unpack (NoDup ["chrom"; "target"; "bases_1X"])).
    vm_compute. exact I. }
  assert (region_of (dict_row ["chrom"; "target"; "bases_1X"]
                       ["chr2"; "30-40"]) ≠ None) as Hregion.
  { vm_compute. discriminate. }
  split; [exact Hnd|]. split; [reflexivity|]. split; [discriminate|].
  split; [simpl; lia|]. split; [exact Hregion|]. split; [reflexivity|].
  exact (missing_coverage_cell_raises (Py := cpython)
           ["chrom"; "target"; "bases_1X"]
           [["chr1"; "10-20"; "5"]] ["chr2"; "30-40"]
           [["chr3"; "50-60"; "1"]] 2 Hnd eq_refl
           ltac:(discriminate) ltac:(simpl; lia) Hregion eq_refl).
Defined.

(** X9. When the target of a row has a hyphen, the region is what stands
    before and after the first hyphen, stripped of white space, and the
    columns [start] and [end] are not read: a target that begins with a
    hyphen has the empty start. *)
Theorem region_from_first_hyphen (row : gmap string (option string))
    (a b : string) :
  row !! "target" = Some (Some (a ++ String "-" b)) →
  has_char "-" a = false →
  region_of row = Some (Some (strip a), Some (strip b)).
Proof.
  intros Htarget Ha. unfold region_of, get. rewrite Htarget.
  change (str (Some (a ++ String "-" b))) with (a ++ String "-" b).
  rewrite truthy_append_cons, has_char_append.
  change (has_char "-" (String "-" b)) with true.
  by rewrite orb_true_r, (split_once_spec _ _ _ Ha).
Qed.

Lemma region_from_first_hyphen_witness :
  dict_row ["target"; "start"; "end"] ["-5 - 7"; "1"; "2"] !! "target" =
    Some (Some ("" ++ String "-" "5 - 7")) ∧
  has_char "-" "" = false ∧
  region_of (dict_row ["target"; "start"; "end"] ["-5 - 7"; "1"; "2"]) =
    Some (Some (strip ""), Some (strip "5 - 7")).
Proof.
  assert (dict_row ["target"; "start"; "end"] ["-5 - 7"; "1"; "2"]
            !! "target" = Some (Some ("" ++ String "-" "5 - 7"))) as Htarget
    by (by vm_compute).
  split; [exact Htarget|]. split; [reflexivity|].
  exact (region_from_first_hyphen _ "" "5 - 7" Htarget eq_refl).
Defined.

(** X10. A line of the GFF file that is no comment and has more than nine
    cells stops [visualize_gff] with the [ValueError] of the unpacking,
    whatever the other lines are: no feature is kept. *)
Theorem extra_cells_raise `{Py : Interpreter} (text : string) :
  Exists (λ line, startswith line "#" = false ∧
                  (9 < length (cells_of_line line))%nat) (readlines text) →
  features_data text = None.
Proof.
  intros Hlong. apply features_of_lines_raised.
  eapply Exists_impl; [exact Hlong|]. intros line [Hhash Hlen].
  by apply feature_step_long.
Qed.

Lemma extra_cells_raise_witness :
  Exists (λ line, startswith line "#" = false ∧
                  (9 < length (cells_of_line line))%nat)
    (readlines (line_of_cells ["c"; "s"; "t"; "1"; "2"; "."; "."; "."; "a";
                               "b"])) ∧
  features_data (Py := cpython)
    (line_of_cells ["c"; "s"; "t"; "1"; "2"; "."; "."; "."; "a"; "b"])
  = None.
Proof.
  assert (Exists (λ line, startswith line "#" = false ∧
                          (9 < length (cells_of_line line))%nat)
            (readlines (line_of_cells ["c"; "s"; "t"; "1"; "2"; "."; ".";
                                       "."; "a"; "b"]))) as Hlong.
  { apply Exists_cons_hd. split; [reflexivity|]. vm_compute. lia. }
  split; [exact Hlong|].
  exact (extra_cells_raise (Py := cpython) _ Hlong).
Defined.

(** X11. The groups of [visualize_gff]: a sequence has a group exactly when
    a feature is on it, and its group has the features on it, every one
    once and in the order of the file. *)
Theorem grouped_features_lookup (features : list Feature) (k : string) :
  grouped_features features !! k =
  match filter (λ f, seqid f = k) features with
  | [] => None
  | group => Some (feature_tuple <$> group)
  end.
Proof.
  induction features as [|f features IH] using rev_ind; [done|].
  unfold grouped_features in *. rewrite foldl_app. simpl.
  rewrite filter_app. destruct (decide (seqid f = k)) as [<- |Hne].
  - rewrite lookup_insert_eq, IH, filter_cons_True by done.
    destruct (filter (λ f0, seqid f0 = seqid f) features) as [|g group];
      [done|].
    simpl. by rewrite fmap_app.
  - rewrite lookup_insert_ne, IH, filter_cons_False by done.
    by rewrite app_nil_r.
Qed.

Section ReadBack.
Context `{Py : Interpreter}.

(** The line of a row is the line of its nine cells. *)
Lemma gff_line_cells (row : gmap string (option string)) (s e b : string) :
  gff_line row (Some s) (Some e) b =
  line_of_cells
    [str (get row "chrom" "chrUnknown"); "EHDV"; "region"; s; e; "."; ".";
     ".";
     "ID=region_" ++ s ++
     (if (1 <=? default 0 (py_int b))%Z
      then ";Name=region;color=0,0,255" else ";Name=region")].
Proof.
  unfold gff_line, line_of_cells.
  change (str (Some s)) with s. change (str (Some e)) with e.
  destruct (1 <=? default 0 (py_int b))%Z; cbn [join];
    repeat (rewrite ?append_cons, ?append_nil_l, ?append_assoc);
    reflexivity.
Qed.

Lemma feature_step_written (row : gmap string (option string))
    (s e b : string) (zs ze : Z) :
  not_space (first_char (str (get row "chrom" "chrUnknown"))) = true →
  startswith (str (get row "chrom" "chrUnknown")) "#" = false →
  has_char TAB (str (get row "chrom" "chrUnknown")) = false →
  has_char TAB s = false → has_char TAB e = false →
  py_int s = Some zs → py_int e = Some ze →
  feature_step (gff_line row (Some s) (Some e) b) =
  Done (mkFeature (str (get row "chrom" "chrUnknown")) zs ze "region"
          (if (1 <=? default 0 (py_int b))%Z
           then "0,0,255" else "black")).
Proof.
  intros Hfirst Hhash Hc Hs He Hzs Hze. rewrite gff_line_cells.
  set (c := str (get row "chrom" "chrUnknown")) in *.
  set (blue := (1 <=? default 0 (py_int b))%Z). clearbody blue.
  assert (has_char ";" s = false) as Hsemi.
  { by apply (py_int_chars s zs). }
  unfold feature_step.
  assert (startswith
            (line_of_cells
               [c; "EHDV"; "region"; s; e; "."; "."; ".";
                "ID=region_" ++ s ++
                (if blue then ";Name=region;color=0,0,255"
                 else ";Name=region")]) "#" = false) as ->.
  { destruct (not_space_Some _ Hfirst) as (x & Hx & _).
    unfold line_of_cells. cbn [join].
    by rewrite !append_assoc, (startswith_append _ _ x Hx). }
  rewrite cells_of_joined_line.
  - cbn [length Nat.ltb Nat.leb]. rewrite Hzs, Hze.
    by rewrite (color_of_written s blue Hsemi).
  - repeat (apply Forall_cons; split; [done|]).
    apply Forall_cons. split; [|done].
    rewrite !has_char_append, Hs. by destruct blue.
  - exact Hfirst.
  - cbn [last default]. unfold id.
    destruct blue.
    + by rewrite (last_char_append _ _ "5") by (by apply last_char_append).
    + by rewrite (last_char_append _ _ "n") by (by apply last_char_append).
Qed.

Lemma gff_line_eol (row : gmap string (option string)) (s e b : string) :
  writable_cell (str (get row "chrom" "chrUnknown")) = true →
  writable_cell s = true → writable_cell e = true →
  ∃ x, gff_line row (Some s) (Some e) b = x ++ String LF "" ∧
       has_char LF x = false ∧ has_char CR x = false.
Proof.
  intros (_ & Hc1 & Hc2)%writable_cell_spec (_ & Hs1 & Hs2)%writable_cell_spec
         (_ & He1 & He2)%writable_cell_spec.
  rewrite gff_line_cells. unfold line_of_cells. eexists. split; [done|].
  split.
  - apply has_char_join; [done|].
    repeat (apply Forall_cons; split; [done|]).
    apply Forall_cons. split; [|done].
    rewrite !has_char_append, Hs1.
    by destruct (1 <=? default 0 (py_int b))%Z.
  - apply has_char_join; [done|].
    repeat (apply Forall_cons; split; [done|]).
    apply Forall_cons. split; [|done].
    rewrite !has_char_append, Hs2.
    by destruct (1 <=? default 0 (py_int b))%Z.
Qed.

(** The line that is written is one line of the file, and it is read back
    as the feature of the row. *)
Lemma gff_line_read_back (row : gmap string (option string))
    (s e b : string) (zs ze : Z) :
  not_space (first_char (str (get row "chrom" "chrUnknown"))) = true →
  startswith (str (get row "chrom" "chrUnknown")) "#" = false →
  writable_cell (str (get row "chrom" "chrUnknown")) = true →
  writable_cell s = true → writable_cell e = true →
  py_int s = Some zs → py_int e = Some ze →
  readlines (gff_line row (Some s) (Some e) b) =
    [gff_line row (Some s) (Some e) b] ∧
  feature_step (gff_line row (Some s) (Some e) b) =
  Done (mkFeature (str (get row "chrom" "chrUnknown")) zs ze "region"
          (if (1 <=? default 0 (py_int b))%Z
           then "0,0,255" else "black")).
Proof.
  intros Hfirst Hhash Hc Hs He Hzs Hze. split.
  - destruct (gff_line_eol row s e b Hc Hs He) as (x & -> & Hlf & Hcr).
    by rewrite (readlines_line x "" Hlf Hcr).
  - apply writable_cell_spec in Hc as (Hc & _).
    apply writable_cell_spec in Hs as (Hs & _).
    apply writable_cell_spec in He as (He & _).
    by apply feature_step_written.
Qed.

End ReadBack.

(** X12. What [tsv_to_gff] writes for a row, [visualize_gff] reads back.
    For a row whose sequence name, start and end have no tab and no end of
    line in them, whose sequence name starts with a character of the ASCII
    range that is no white space and no [#], and whose start and end are
    literals that [int] takes, what is written is one line of the file, and
    that line gives the feature of that sequence, start and end, of type
    [region], in the colour [0,0,255] when the coverage is an integer of 1
    or more and in black otherwise. *)
Theorem written_line_is_read_back `{Py : Interpreter}
    (row : gmap string (option string)) (s e b : string) (zs ze : Z) :
  not_space (first_char (str (get row "chrom" "chrUnknown"))) = true →
  startswith (str (get row "chrom" "chrUnknown")) "#" = false →
  writable_cell (str (get row "chrom" "chrUnknown")) = true →
  writable_cell s = true → writable_cell e = true →
  py_int s = Some zs → py_int e = Some ze →
  readlines (gff_line row (Some s) (Some e) b) =
    [gff_line row (Some s) (Some e) b] ∧
  feature_step (gff_line row (Some s) (Some e) b) =
  Done (mkFeature (str (get row "chrom" "chrUnknown")) zs ze "region"
          (if (1 <=? default 0 (py_int b))%Z
           then "0,0,255" else "black")).
Proof. apply gff_line_read_back. Qed.

Lemma written_line_is_read_back_witness :
  let row := dict_row ["chrom"; "target"; "bases_1X"] ["chr1"; "10-20"; "5"] in
  not_space (first_char (str (get row "chrom" "chrUnknown"))) = true ∧
  startswith (str (get row "chrom" "chrUnknown")) "#" = false ∧
  writable_cell (str (get row "chrom" "chrUnknown")) = true ∧
  writable_cell "10" = true ∧ writable_cell "20" = true ∧
  py_int (Py := cpython) "10" = Some 10%Z ∧
  py_int (Py := cpython) "20" = Some 20%Z ∧
  readlines (gff_line (Py := cpython) row (Some "10") (Some "20") "5") =
    [gff_line (Py := cpython) row (Some "10") (Some "20") "5"] ∧
  feature_step (Py := cpython)
    (gff_line (Py := cpython) row (Some "10") (Some "20") "5") =
  Done (mkFeature (str (get row "chrom" "chrUnknown")) 10 20 "region"
          (if (1 <=? default 0 (py_int (Py := cpython) "5"))%Z
           then "0,0,255" else "black")).
Proof.
  intros row.
  assert (not_space (first_char (str (get row "chrom" "chrUnknown"))) = true)
    as Hfirst by (by vm_compute).
  assert (startswith (str (get row "chrom" "chrUnknown")) "#" = false)
    as Hhash by (by vm_compute).
  assert (writable_cell (str (get row "chrom" "chrUnknown")) = true)
    as Hcell by (by vm_compute).
  do 7 (split; [done|]).
  exact (written_line_is_read_back (Py := cpython) row "10" "20" "5" 10 20
           Hfirst Hhash Hcell eq_refl eq_refl eq_refl eq_refl).
Defined.



(** * Reading the PSL file: lines that stop early *)

Lemma cell_of_padded (cells : list string) (n i : nat) name :
  column_index name psl_columns = Some i → (i < n)%nat →
  cell name ((Some <$> cells) ++ replicate (n - length cells) None)%list
  = cells !! i.
Proof.
  intros Hname Hi. unfold cell. rewrite Hname. simpl.
  by rewrite padded_lookup.
Qed.

Lemma DataFrame_built (data : list (list string)) (columns : list string) :
  width data = length columns → DataFrame data columns
  = inr ((λ row : list string,
            ((Some <$> row) ++
             replicate (length columns - length row) None)%list) <$> data).
Proof.
  intros Hw. unfold DataFrame. destruct data as [|row data]; [done|].
  rewrite decide_True by exact Hw. unfold to_object_array. by rewrite Hw.
Qed.

Lemma astype_int_cells_texts `{Py : Interpreter} (frame : list (list (option string))) :
  Forall (λ row, is_Some (cell "blockCount" row)) frame →
  astype_int_cells frame =
  match astype_int
          ((λ row, row_of_cells row (default "" (cell "blockCount" row)))
           <$> frame) with
  | inl e => inl (CellError e)
  | inr d => inr d
  end.
Proof.
  induction 1 as [|row frame [s Hs] _ IH]; [done|].
  rewrite fmap_cons. simpl. rewrite Hs. simpl.
  destruct (to_int64 s); [done|]. rewrite IH.
  by destruct (astype_int _).
Qed.

(** X14. A line that stops after 18, 19 or 20 cells is a record all the
    same when another line has 21: pandas fills it up, and the columns it
    lacks are not read. When every line after the fifth has 18 to 21 cells
    and one of them has 21, the run is the run on a frame with one row for
    each line, which has the cells 10, 14 and 18 of the line as [qName],
    [tName] and [blockCount]. *)
Theorem truncated_lines_are_records `{Py : Interpreter} `{HashOrder} (text : string)
    (fs : Files) :
  Exists (λ line, length (cells_of_line line) = 21%nat)
    (drop 5 (readlines text)) →
  Forall (λ line, (18 ≤ length (cells_of_line line) ≤ 21)%nat)
    (drop 5 (readlines text)) →
  ∃ df : list (Row string),
    Forall2 (λ line r,
               cells_of_line line !! 9%nat = Some (qName r) ∧
               cells_of_line line !! 13%nat = Some (tName r) ∧
               cells_of_line line !! 17%nat = Some (blockCount r))
      (drop 5 (readlines text)) df ∧
    process_psl_text text fs = lift_outcome (process_psl_file df fs).
Proof.
  intros (full & Hfull & Hlen)%Exists_exists Hall.
  set (lines := drop 5 (readlines text)) in *.
  set (pad := λ line,
         ((Some <$> cells_of_line line) ++
          replicate (21 - length (cells_of_line line)) None)%list).
  set (as_row := λ row : list (option string),
         row_of_cells row (default "" (cell "blockCount" row))).
  exists (as_row ∘ pad <$> lines). split.
  - apply Forall2_fmap_r, Forall_Forall2_diag.
    eapply Forall_impl; [exact Hall|]. intros line [Hlo Hhi]. simpl.
    unfold as_row, pad, row_of_cells. cbn [qName tName blockCount].
    rewrite (cell_of_padded _ 21 9 "qName" eq_refl) by lia.
    rewrite (cell_of_padded _ 21 13 "tName" eq_refl) by lia.
    rewrite (cell_of_padded _ 21 17 "blockCount" eq_refl) by lia.
    destruct (lookup_lt_is_Some_2 (cells_of_line line) 9) as [q ->]; [lia|].
    destruct (lookup_lt_is_Some_2 (cells_of_line line) 13) as [t ->]; [lia|].
    destruct (lookup_lt_is_Some_2 (cells_of_line line) 17) as [b ->]; [lia|].
    done.
  - unfold process_psl_text. fold lines.
    assert (width (cells_of_line <$> lines) = 21%nat) as Hw.
    { apply Nat.le_antisymm.
      - destruct (width_attained (cells_of_line <$> lines))
          as (row & (line & -> & Hin)%list_elem_of_fmap & <-).
        { intros Hnil%fmap_nil_inv. rewrite Hnil in Hfull.
          by apply elem_of_nil in Hfull. }
        rewrite Forall_forall in Hall. by apply Hall.
      - rewrite <- Hlen. apply width_ge. by apply list_elem_of_fmap_2. }
    assert (DataFrame (cells_of_line <$> lines) psl_columns =
            inr (pad <$> lines)) as ->.
    { rewrite DataFrame_built by exact Hw.
      by rewrite <- list_fmap_compose. }
    rewrite astype_int_cells_texts.
    + rewrite <- list_fmap_compose, process_psl_file_stages.
      by destruct (astype_int _).
    + apply Forall_fmap. eapply Forall_impl; [exact Hall|].
      intros line [Hlo Hhi]. simpl. unfold pad.
      rewrite (cell_of_padded _ 21 17 "blockCount" eq_refl) by lia.
      apply lookup_lt_is_Some_2. lia.
Qed.

Lemma truncated_lines_are_records_witness :
  Exists (λ line, length (cells_of_line line) = 21%nat)
    (drop 5 (readlines psl_text_truncated)) ∧
  Forall (λ line, (18 ≤ length (cells_of_line line) ≤ 21)%nat)
    (drop 5 (readlines psl_text_truncated)) ∧
  ∃ df : list (Row string),
    Forall2 (λ line r,
               cells_of_line line !! 9%nat = Some (qName r) ∧
               cells_of_line line !! 13%nat = Some (tName r) ∧
               cells_of_line line !! 17%nat = Some (blockCount r))
      (drop 5 (readlines psl_text_truncated)) df ∧
    process_psl_text (Py := cpython) (H := run_forward) psl_text_truncated [] =
    lift_outcome (process_psl_file (Py := cpython) (H := run_forward) df []).
Proof.
  assert (drop 5 (readlines psl_text_truncated) =
          [line_of_cells (cells_of_row (hit "p1" "t1" "1"));
           line_of_cells (take 18 (cells_of_row (hit "p2" "t2" "2")))])
    as Hlines by (by vm_compute).
  assert (Exists (λ line, length (cells_of_line line) = 21%nat)
            (drop 5 (readlines psl_text_truncated))) as Hfull.
  { rewrite Hlines. apply Exists_cons_hd. by vm_compute. }
  assert (Forall (λ line, (18 ≤ length (cells_of_line line) ≤ 21)%nat)
            (drop 5 (readlines psl_text_truncated))) as Hall.
  { rewrite Hlines. repeat apply Forall_cons_2; [| |done]; vm_compute; lia. }
  split; [exact Hfull|]. split; [exact Hall|].
  exact (truncated_lines_are_records (Py := cpython) (H := run_forward) psl_text_truncated []
           Hfull Hall).
Defined.

(** * The reports against one another *)

Section CountFacts.
Context {B : Type} (key val : Row B → string) (df : list (Row B)).

Lemma py_set_unique (x : list string) : py_set (unique x) = py_set x.
Proof.
  apply set_eq. intros v. by rewrite !elem_of_py_set, elem_of_unique.
Qed.

Lemma length_unique (x : list string) : length (unique x) = size (py_set x).
Proof. apply nunique_size. Qed.

(** A report has as many rows as the key column has values. *)
Lemma length_report {V} (f : list string → V) :
  length (apply f (groupby key val df)) = size (py_set (key <$> df)).
Proof.
  unfold apply, groupby, group_keys.
  by rewrite !length_fmap, merge_sort_Permutation, length_unique.
Qed.

Lemma count_report k n :
  (k, n) ∈ apply nunique (groupby key val df) ↔
  (∃ v, related key val df k v) ∧
  n = size (py_set (val <$> filter (λ r, key r = k) df)).
Proof. by rewrite elem_of_apply_groupby, nunique_size. Qed.

Lemma group_subseteq k :
  py_set (val <$> filter (λ r, key r = k) df) ⊆ py_set (val <$> df).
Proof.
  intros v. rewrite !elem_of_py_set, elem_of_group, list_elem_of_fmap.
  intros (r & Hr & _ & <-). by exists r.
Qed.

Lemma count_bounds k n :
  (k, n) ∈ apply nunique (groupby key val df) →
  (1 ≤ n ≤ size (py_set (val <$> df)))%nat.
Proof.
  intros [[v Hv] ->]%count_report. split.
  - assert (size (py_set (val <$> filter (λ r, key r = k) df)) ≠ 0%nat);
      [|lia].
    apply size_non_empty_iff. intros Hempty.
    assert (v ∈ py_set (val <$> filter (λ r, key r = k) df)) as Hin
      by (by apply elem_of_py_set, elem_of_group).
    rewrite Hempty in Hin. by apply elem_of_empty in Hin.
  - apply subseteq_size, group_subseteq.
Qed.
End CountFacts.

Lemma count_monotone {B} (key val : Row B → string) (df df' : list (Row B))
    k n :
  df ⊆ df' →
  (k, n) ∈ apply nunique (groupby key val df) →
  ∃ n', (k, n') ∈ apply nunique (groupby key val df') ∧ (n ≤ n')%nat.
Proof.
  intros Hsub [[v (r & Hr & Hk & Hv)] ->]%count_report.
  eexists. split.
  - apply count_report. split; [|done]. exists v, r. split; [|done].
    by apply Hsub.
  - apply subseteq_size. intros w.
    rewrite !elem_of_py_set, !elem_of_group.
    intros (r' & Hr' & Hk' & Hw). exists r'. split; [|done]. by apply Hsub.
Qed.

(** X15. A probe is in the report of the probes hitting all targets exactly
    when its count of targets is the number of rows of the target counts:
    the last report can be read off the two count reports. *)
Theorem universal_iff_full_count {B} (df : list (Row B)) (p : string) :
  p ∈ probes_hitting_all_targets df ↔
  (p, length (target_counts df)) ∈ probe_counts df.
Proof.
  unfold probes_hitting_all_targets, probe_target_groups, target_counts,
    probe_counts.
  rewrite (length_report tName qName df nunique), count_report.
  rewrite list_elem_of_fmap. unfold all_targets. rewrite py_set_unique. split.
  - intros ([p' X] & -> & [HX Hin]%list_elem_of_filter). simpl in *.
    apply elem_of_apply_groupby in Hin as [Hkey ->].
    split; [done|]. by rewrite HX.
  - intros [Hkey Hsize].
    exists (p, py_set (tName <$> df)). split; [done|].
    apply list_elem_of_filter. split; [done|].
    apply elem_of_apply_groupby. split; [done|]. symmetry.
    apply set_subseteq_size_eq; [apply group_subseteq|]. by rewrite Hsize.
Qed.

(** X16. Every count is at least 1, a count of targets is at most the
    number of rows of the target counts, and a count of probes is at most
    the number of rows of the probe counts. *)
Theorem counts_bounded {B} (df : list (Row B)) :
  (∀ p n, (p, n) ∈ probe_counts df →
          (1 ≤ n ≤ length (target_counts df))%nat) ∧
  (∀ t n, (t, n) ∈ target_counts df →
          (1 ≤ n ≤ length (probe_counts df))%nat).
Proof.
  unfold probe_counts, target_counts. split.
  - intros p n Hn. rewrite (length_report tName qName df nunique).
    by apply (count_bounds qName tName df p).
  - intros t n Hn. rewrite (length_report qName tName df nunique).
    by apply (count_bounds tName qName df t).
Qed.

(** X17. Records that are added never lower a count and never take a key
    away: when every row of a frame is a row of a second frame, a target
    with a count in the first has a count in the second that is the same or
    more, and so has a probe. *)
Theorem counts_grow_with_records {B} (df df' : list (Row B)) :
  df ⊆ df' →
  (∀ t n, (t, n) ∈ target_counts df →
          ∃ n', (t, n') ∈ target_counts df' ∧ (n ≤ n')%nat) ∧
  (∀ p n, (p, n) ∈ probe_counts df →
          ∃ n', (p, n') ∈ probe_counts df' ∧ (n ≤ n')%nat).
Proof.
  intros Hsub. unfold target_counts, probe_counts. split.
  - intros t n. by apply count_monotone.
  - intros p n. by apply count_monotone.
Qed.

Lemma counts_grow_with_records_witness :
  example1_int ⊆ (hit "p3" "t2" 0%Z :: example1_int) ∧
  (∀ t n, (t, n) ∈ target_counts example1_int →
          ∃ n', (t, n') ∈ target_counts (hit "p3" "t2" 0%Z :: example1_int) ∧
                (n ≤ n')%nat) ∧
  (∀ p n, (p, n) ∈ probe_counts example1_int →
          ∃ n', (p, n') ∈ probe_counts (hit "p3" "t2" 0%Z :: example1_int) ∧
                (n ≤ n')%nat).
Proof.
  assert (example1_int ⊆ (hit "p3" "t2" 0%Z :: example1_int)) as Hsub.
  { intros r Hr. apply elem_of_cons. by right. }
  split; [exact Hsub|].
  exact (counts_grow_with_records example1_int _ Hsub).
Defined.

(** ** The counts add up *)

Lemma size_list_to_set_inj {A C} `{Countable A, Countable C} (f : A → C)
    `{!Inj (=) (=) f} (l : list A) :
  size (list_to_set (f <$> l) : gset C) = size (list_to_set l : gset A).
Proof.
  assert (list_to_set (f <$> l) =@{gset C} list_to_set (f <$> remove_dups l))
    as ->.
  { apply set_eq. intros y. rewrite !elem_of_list_to_set, !list_elem_of_fmap.
    by setoid_rewrite elem_of_remove_dups. }
  assert (list_to_set l =@{gset A} list_to_set (remove_dups l)) as ->.
  { apply set_eq. intros y.
    by rewrite !elem_of_list_to_set, elem_of_remove_dups. }
  rewrite !size_list_to_set.
  - by rewrite length_fmap.
  - apply NoDup_remove_dups.
  - apply NoDup_fmap_2; [done|]. apply NoDup_remove_dups.
Qed.

Section Handshake.
Context {B : Type} (key val : Row B → string) (df : list (Row B)).

Local Abbreviation R :=
  (list_to_set ((λ r, (key r, val r)) <$> df) : gset (string * string)).

Lemma elem_of_pairs k v : (k, v) ∈ R ↔ related key val df k v.
Proof.
  rewrite elem_of_list_to_set, list_elem_of_fmap. unfold related. split.
  - intros (r & [= -> ->] & Hr). by exists r.
  - intros (r & Hr & <- & <-). by exists r.
Qed.

Lemma fiber_size k :
  size (filter (λ x, x.1 = k) R) =
  nunique (val <$> filter (λ r, key r = k) df).
Proof.
  unfold nunique.
  rewrite <- (length_fmap (λ v, (k, v))
                (unique (val <$> filter (λ r, key r = k) df))).
  rewrite <- (size_list_to_set (C := gset (string * string))).
  - f_equal. apply set_eq. intros [k' v].
    rewrite elem_of_filter, elem_of_pairs, elem_of_list_to_set,
      list_elem_of_fmap. simpl. split.
    + intros [-> Hv]. exists v. split; [done|].
      by apply elem_of_unique, elem_of_group.
    + intros (v' & [= -> ->] & Hv%elem_of_unique%elem_of_group). done.
  - apply NoDup_fmap_2; [|apply NoDup_unique]. by intros v1 v2 [= ->].
Qed.

Lemma sum_fibers (ks : list string) :
  NoDup ks →
  sum_list ((λ k, size (filter (λ x, x.1 = k) R)) <$> ks) =
  size (filter (λ x, x.1 ∈ ks) R).
Proof.
  induction 1 as [|k ks Hk _ IH].
  - simpl. symmetry. apply size_empty_iff. intros x.
    rewrite elem_of_filter, elem_of_nil, elem_of_empty. tauto.
  - rewrite fmap_cons. simpl. rewrite IH, <- size_union.
    + f_equal. apply set_eq. intros x.
      rewrite elem_of_union, !elem_of_filter, elem_of_cons. tauto.
    + intros x [Hx _]%elem_of_filter [Hx' _]%elem_of_filter. congruence.
Qed.

Lemma counts_sum :
  sum_list (apply nunique (groupby key val df)).*2 = size R.
Proof.
  unfold apply, groupby. rewrite <- !list_fmap_compose.
  assert (snd ∘ (λ kx : string * list string, (kx.1, nunique kx.2)) ∘
            (λ k, (k, val <$> filter (λ r, key r = k) df))
          <$> group_keys key df =
          (λ k, size (filter (λ x, x.1 = k) R)) <$> group_keys key df) as ->.
  { apply list_fmap_ext. intros _ k _. simpl. by rewrite fiber_size. }
  rewrite sum_fibers by apply ascending_NoDup, group_keys_ascending.
  f_equal. apply set_eq. intros [k v].
  rewrite elem_of_filter, elem_of_pairs, (elem_of_group_keys key val).
  simpl. split; [by intros [_ ?]|]. intros Hv. split; [by exists v|done].
Qed.
End Handshake.

(** X18. The counts of the two count reports add up to the same number, the
    number of distinct pairs of probe and target in the frame: every pair is
    counted once for its target and once for its probe. *)
Theorem counts_add_up {B} (df : list (Row B)) :
  sum_list (target_counts df).*2 =
    size (list_to_set (pair_of <$> df) : gset (string * string)) ∧
  sum_list (probe_counts df).*2 =
    size (list_to_set (pair_of <$> df) : gset (string * string)).
Proof.
  unfold target_counts, probe_counts. rewrite !counts_sum. split; [|done].
  assert (Inj (=) (=) (λ pt : string * string, (pt.2, pt.1))) as Hswap
    by (by intros [p1 t1] [p2 t2] [= -> ->]).
  rewrite <- (size_list_to_set_inj (λ pt : string * string, (pt.2, pt.1))
                (pair_of <$> df)).
  by rewrite <- list_fmap_compose.
Qed.
